(** * Order pricing and placement: a shallow embedding of [main.py]

    The Python module defines value objects ([Product], [Customer],
    [DeliveryInfo], [OrderItem]), a [ShoppingCart], two families of strategies
    (discount and delivery), the stateful [Order] aggregate and the
    [OrderPlacementFacade].  Each class becomes a module below, each method a
    function that takes [self] explicitly; methods that assign attributes
    return the updated object.

    Conventions of the embedding:
    - Python's [float] is an interface ([Number]) with two instances: exact
      rational arithmetic ([Q]) and IEEE 754 binary64 ([spec_float]).  Facts
      that depend only on the control flow are proved for every instance; facts
      that need the laws of arithmetic are proved for the exact instance.
    - Python's [int] is [Z]; [str] is [string]; [datetime] and [timedelta]
      are counts of microseconds in [Z].
    - [uuid.uuid4()] and [datetime.now()] are inputs: the caller passes the
      fresh identifier and the current time.
    - An exception is a value of type [exception]; a call that may raise
      returns [exception + A].  The exceptions modelled are the [ValueError]
      of [calculate_total] and of a text that [float] cannot parse, and the
      [OverflowError] of an [int] too large to convert to a [float].
    - Console output ([print]) and the text renderings ([get_info],
      [get_summary], [get_order_summary], [get_contact_info]) are not modelled:
      they assign no attribute and no other method reads their result. *)

From Stdlib Require Import ZArith QArith Qminmax Lqa List String Bool Lia.
From Stdlib Require Import SpecFloat.
Import ListNotations.

Local Open Scope Z_scope.
Local Open Scope string_scope.

(** ** Python's [float] *)

(** The operations [main.py] applies to floats: conversion from an integer
    ([float(0)], [float('400.00')], the [int] operand of a mixed product), the
    four arithmetic operations and the comparison [<] that [min] uses. *)
Class Number (F : Type) : Type := {
  of_int : Z -> F;
  add : F -> F -> F;
  sub : F -> F -> F;
  mul : F -> F -> F;
  div : F -> F -> F;
  ltb : F -> F -> bool
}.

Declare Scope float_scope.
Delimit Scope float_scope with float.
Infix "+" := add : float_scope.
Infix "-" := sub : float_scope.
Infix "*" := mul : float_scope.
Infix "/" := div : float_scope.
Infix "<?" := ltb : float_scope.

(** Exact arithmetic: the rationals.  Only the arithmetic is exact: which
    integers convert ([Py.in_float_range]) is as in CPython. *)
#[export] Instance exact : Number Q := {
  of_int := inject_Z;
  add := Qplus;
  sub := Qminus;
  mul := Qmult;
  div := Qdiv;
  ltb := fun a b => negb (Qle_bool b a)
}.

(** IEEE 754 binary64 (round to nearest, ties to even), the format of
    CPython's [float].  [of_int] rounds an integer beyond the range of the
    format to an infinity; the program converts integers through
    [Py.float_of_int], which raises [OverflowError] there as CPython does. *)
Definition prec : Z := 53.
Definition emax : Z := 1024.

#[export] Instance binary64 : Number spec_float := {
  of_int := fun n => binary_normalize prec emax n 0 false;
  add := SFadd prec emax;
  sub := SFsub prec emax;
  mul := SFmul prec emax;
  div := SFdiv prec emax;
  ltb := SFltb
}.

(** ** Exceptions, values and builtins *)

Inductive exception : Type :=
| ValueError (msg : string)
| OverflowError (msg : string).

Definition datetime : Type := Z.
Definition timedelta : Type := Z.

Definition timedelta_hours (hours : Z) : timedelta := hours * 3600 * 1000000.
Definition timedelta_days (days : Z) : timedelta := days * 86400 * 1000000.

Module Py.
Section Builtins.
Context {F : Type} {num : Number F}.

(** The values stored in the [dict] arguments of [place_order]. *)
Inductive value : Type :=
| VInt (n : Z)
| VFloat (x : F)
| VStr (s : string).

(** A [dict] with [str] keys, in insertion order. *)
Definition dict : Type := list (string * value).

(** [d.get(key, default)] *)
Fixpoint get (d : dict) (key : string) (default : value) : value :=
  match d with
  | [] => default
  | (k, v) :: rest => if String.eqb k key then v else get rest key default
  end.

(** [min(a, b)]: the second argument replaces the first only when it compares
    strictly smaller. *)
Definition min (a b : F) : F := if (b <? a)%float then b else a.

(** [sum(xs)]: starts from the integer 0 and adds from left to right.  (Recent
    CPython versions compensate the rounding error of a sum of floats; in
    exact arithmetic, and wherever no addition rounds, the result is the
    same.) *)
Definition sum (xs : list F) : F := fold_left add xs (of_int 0).

(** An [int] converts to a [float] when its nearest binary64 number is
    finite, whatever the arithmetic carried out afterwards. *)
Definition in_float_range (n : Z) : bool :=
  match binary_normalize prec emax n 0 false with
  | S754_infinity _ => false
  | _ => true
  end.

(** The conversion of an [int] to a [float]: [float(n)], and the [int]
    operand of a product with a [float]. *)
Definition float_of_int (n : Z) : exception + F :=
  if in_float_range n then inr (of_int n)
  else inl (OverflowError "int too large to convert to float").

(** [float(v)].  On a [str] the runtime parses the text; the parser is the
    parameter [float_of_str], which returns the number or the [ValueError] the
    runtime raises. *)
Definition float (float_of_str : string -> exception + F) (v : value)
  : exception + F :=
  match v with
  | VInt n => float_of_int n
  | VFloat x => inr x
  | VStr s => float_of_str s
  end.

End Builtins.
Arguments value F : clear implicits.
Arguments dict F : clear implicits.
End Py.

(** ** Value objects *)

Module OrderStatus.
Definition PENDING : string := "Pending".
Definition PAID : string := "Paid".
Definition SHIPPED : string := "Shipped".
Definition DELIVERED : string := "Delivered".
End OrderStatus.

Module DeliveryInfo.
Record t (F : Type) : Type := init {
  cost : F;
  delivery_time : timedelta;
  estimated_delivery_time : datetime
}.
Arguments init {F}.
Arguments cost {F}.
Arguments delivery_time {F}.
Arguments estimated_delivery_time {F}.

(** [info.cost = c] *)
Definition set_cost {F : Type} (c : F) (self : t F) : t F :=
  init c (delivery_time self) (estimated_delivery_time self).
End DeliveryInfo.

Module Product.
(** [id] is the [uuid4] drawn by the constructor.  A [Product] defines neither
    [__eq__] nor [__hash__], so as a [dict] key it is compared by object
    identity, which [id] stands for. *)
Record t (F : Type) : Type := init {
  id : N;
  name : string;
  description : string;
  price : F;
  stock_quantity : Z
}.
Arguments init {F}.
Arguments id {F}.
Arguments name {F}.
Arguments description {F}.
Arguments price {F}.
Arguments stock_quantity {F}.

(** [p is q] *)
Definition same {F : Type} (p q : t F) : bool := N.eqb (id p) (id q).
End Product.

Module Customer.
Record t : Type := init {
  name : string;
  email : string;
  address : string;
  phone_number : string
}.
End Customer.

Module OrderItem.
Section WithNumber.
Context {F : Type} {num : Number F}.

Record t : Type := mk {
  product : Product.t F;
  quantity : Z;
  final_price : F
}.

(** [OrderItem(product, quantity)]: the line total is fixed here.  The
    product [price * quantity] converts the quantity to a [float], which
    raises on a quantity out of range. *)
Definition init (product : Product.t F) (quantity : Z) : exception + t :=
  match Py.float_of_int quantity with
  | inl e => inl e
  | inr q => inr (mk product quantity (Product.price product * q)%float)
  end.

Definition get_subtotal (self : t) : F := final_price self.

End WithNumber.
Arguments t F : clear implicits.
End OrderItem.

(** ** The payment gate *)

(** [place_order] only calls [process_payment(amount, details)] on its
    processor and branches on the boolean it returns; any class with that
    method can stand in for [PaymentProcessor]. *)
Class PaymentGate (F : Type) (P : Type) : Type := {
  process_payment : P -> F -> Py.dict F -> bool
}.

Module PaymentProcessor.
Record t : Type := init {
  type : string
}.

(** Prints three lines and accepts. *)
Definition process_payment {F : Type} (self : t) (amount : F)
  (details : Py.dict F) : bool := true.
End PaymentProcessor.

#[export] Instance PaymentProcessor_gate (F : Type)
  : PaymentGate F PaymentProcessor.t := {
  process_payment := PaymentProcessor.process_payment
}.

(** ** The shopping cart *)

Module ShoppingCart.
Section WithNumber.
Context {F : Type} {num : Number F}.

(** [items] is a [dict] keyed by product objects; it keeps insertion order. *)
Record t : Type := mk {
  items : list (Product.t F * Z)
}.

Definition init : t := mk [].

(** [d[product]], [None] when [product not in d]. *)
Fixpoint getitem (d : list (Product.t F * Z)) (product : Product.t F)
  : option Z :=
  match d with
  | [] => None
  | (p, q) :: rest =>
      if Product.same p product then Some q else getitem rest product
  end.

(** [d[product] = quantity]: an existing key keeps its place, a new key goes
    last. *)
Fixpoint setitem (d : list (Product.t F * Z)) (product : Product.t F)
  (quantity : Z) : list (Product.t F * Z) :=
  match d with
  | [] => [(product, quantity)]
  | (p, q) :: rest =>
      if Product.same p product then (p, quantity) :: rest
      else (p, q) :: setitem rest product quantity
  end.

(** [del d[product]] *)
Fixpoint delitem (d : list (Product.t F * Z)) (product : Product.t F)
  : list (Product.t F * Z) :=
  match d with
  | [] => []
  | (p, q) :: rest =>
      if Product.same p product then rest
      else (p, q) :: delitem rest product
  end.

Definition add_item (self : t) (product : Product.t F) (quantity : Z) : t :=
  match getitem (items self) product with
  | Some current => mk (setitem (items self) product (current + quantity))
  | None => mk (setitem (items self) product quantity)
  end.

Definition remove_item (self : t) (product : Product.t F) : t :=
  match getitem (items self) product with
  | Some _ => mk (delitem (items self) product)
  | None => self
  end.

Definition get_items (self : t) : list (Product.t F * Z) := items self.

(** The loop of [calculate_subtotal] over the entries still to visit;
    [float(quantity)] may raise. *)
Fixpoint subtotal_loop (entries : list (Product.t F * Z)) (subtotal : F)
  : exception + F :=
  match entries with
  | [] => inr subtotal
  | (product, quantity) :: rest =>
      match Py.float_of_int quantity with
      | inl e => inl e
      | inr q => subtotal_loop rest (subtotal + Product.price product * q)%float
      end
  end.

Definition calculate_subtotal (self : t) : exception + F :=
  subtotal_loop (items self) (of_int 0).

End WithNumber.
Arguments t F : clear implicits.
End ShoppingCart.

(** ** Discount strategies *)

Module DiscountStrategy.
Section WithNumber.
Context {F : Type} {num : Number F}.

(** The concrete subclasses of [DiscountStrategy], each with the attributes
    its constructor stores.  The base class itself only raises
    [NotImplementedError] and is never instantiated. *)
Inductive t : Type :=
| NoDiscount
| PercentageDiscountStrategy (percentage : F)
| FixedAmountDiscountStrategy (fixed_amount : F).

(** [PercentageDiscountStrategy(percentage)] stores the fraction. *)
Definition PercentageDiscountStrategy_init (percentage : F) : t :=
  PercentageDiscountStrategy (percentage / of_int 100)%float.

(** [FixedAmountDiscountStrategy(fixed_amount)] *)
Definition FixedAmountDiscountStrategy_init (fixed_amount : F) : t :=
  FixedAmountDiscountStrategy fixed_amount.

Definition apply_discount (self : t) (amount : F) : F :=
  match self with
  | NoDiscount => amount
  | PercentageDiscountStrategy percentage => (amount * percentage)%float
  | FixedAmountDiscountStrategy fixed_amount => Py.min amount fixed_amount
  end.

End WithNumber.
Arguments t F : clear implicits.
End DiscountStrategy.

(** ** Delivery strategies *)

Module DeliveryStrategy.
Section WithNumber.
Context {F : Type} {num : Number F}.

(** The concrete subclasses of [DeliveryStrategy]; none has attributes of its
    own. *)
Inductive t : Type :=
| PickupDeliveryStrategy
| CourierDeliveryStrategy
| PostDeliveryStrategy.

(** The class attribute [COST]. *)
Definition COST (self : t) : F :=
  match self with
  | PickupDeliveryStrategy => of_int 0
  | CourierDeliveryStrategy => of_int 400
  | PostDeliveryStrategy => of_int 150
  end.

(** The class attribute [TIME_DELTA]. *)
Definition TIME_DELTA (self : t) : timedelta :=
  match self with
  | PickupDeliveryStrategy => timedelta_hours 4
  | CourierDeliveryStrategy => timedelta_days 2
  | PostDeliveryStrategy => timedelta_days 7
  end.

Definition calculate_cost (self : t) (address : string) (total_weight : F)
  : F := COST self.

(** [now] is the value of [datetime.now()] at the call. *)
Definition estimate_delivery_time (self : t) (address : string)
  (now : datetime) : DeliveryInfo.t F :=
  let estimated := now + TIME_DELTA self in
  match self with
  | PickupDeliveryStrategy =>
      DeliveryInfo.init (COST self) (TIME_DELTA self) estimated
  | CourierDeliveryStrategy =>
      DeliveryInfo.init (of_int 0) (TIME_DELTA self) estimated
  | PostDeliveryStrategy =>
      DeliveryInfo.init (of_int 0) (TIME_DELTA self) estimated
  end.

End WithNumber.
Arguments t : clear implicits.
End DeliveryStrategy.

(** ** The order *)

Module Order.
Section WithNumber.
Context {F : Type} {num : Number F}.

Record t : Type := mk {
  id : N;
  customer : Customer.t;
  items : list (OrderItem.t F);
  total_amount : F;
  status : string;
  discount_strategy : DiscountStrategy.t F;
  delivery_strategy : option DeliveryStrategy.t;
  applied_discount : F;
  delivery_info : option (DeliveryInfo.t F);
  subtotal_calculated : F;
  delivery_cost : F
}.

(** [Order(customer)]; [id] is the [uuid4] drawn by the constructor. *)
Definition init (id : N) (customer : Customer.t) : t := {|
  id := id;
  customer := customer;
  items := [];
  total_amount := of_int 0;
  status := OrderStatus.PENDING;
  discount_strategy := DiscountStrategy.NoDiscount;
  delivery_strategy := None;
  applied_discount := of_int 0;
  delivery_info := None;
  subtotal_calculated := of_int 0;
  delivery_cost := of_int 0
|}.

(** *** Attribute assignment [self.x = v] *)

Definition set_items (v : list (OrderItem.t F)) (self : t) : t :=
  mk (id self) (customer self) v (total_amount self) (status self)
     (discount_strategy self) (delivery_strategy self) (applied_discount self)
     (delivery_info self) (subtotal_calculated self) (delivery_cost self).

Definition set_total_amount (v : F) (self : t) : t :=
  mk (id self) (customer self) (items self) v (status self)
     (discount_strategy self) (delivery_strategy self) (applied_discount self)
     (delivery_info self) (subtotal_calculated self) (delivery_cost self).

Definition set_status (v : string) (self : t) : t :=
  mk (id self) (customer self) (items self) (total_amount self) v
     (discount_strategy self) (delivery_strategy self) (applied_discount self)
     (delivery_info self) (subtotal_calculated self) (delivery_cost self).

Definition set_applied_discount (v : F) (self : t) : t :=
  mk (id self) (customer self) (items self) (total_amount self) (status self)
     (discount_strategy self) (delivery_strategy self) v
     (delivery_info self) (subtotal_calculated self) (delivery_cost self).

Definition set_delivery_info (v : option (DeliveryInfo.t F)) (self : t) : t :=
  mk (id self) (customer self) (items self) (total_amount self) (status self)
     (discount_strategy self) (delivery_strategy self) (applied_discount self)
     v (subtotal_calculated self) (delivery_cost self).

Definition set_subtotal_calculated (v : F) (self : t) : t :=
  mk (id self) (customer self) (items self) (total_amount self) (status self)
     (discount_strategy self) (delivery_strategy self) (applied_discount self)
     (delivery_info self) v (delivery_cost self).

Definition set_delivery_cost (v : F) (self : t) : t :=
  mk (id self) (customer self) (items self) (total_amount self) (status self)
     (discount_strategy self) (delivery_strategy self) (applied_discount self)
     (delivery_info self) (subtotal_calculated self) v.

(** *** Methods that only assign *)

Definition set_discount_strategy (strategy : DiscountStrategy.t F) (self : t)
  : t :=
  mk (id self) (customer self) (items self) (total_amount self) (status self)
     strategy (delivery_strategy self) (applied_discount self)
     (delivery_info self) (subtotal_calculated self) (delivery_cost self).

Definition set_delivery_strategy (strategy : DeliveryStrategy.t) (self : t)
  : t :=
  mk (id self) (customer self) (items self) (total_amount self) (status self)
     (discount_strategy self) (Some strategy) (applied_discount self)
     (delivery_info self) (subtotal_calculated self) (delivery_cost self).

(** *** Methods that return a value: a state monad over the order

    A method runs on the order and yields the order as the method left it,
    together with the returned value or the raised exception.  The order is
    kept when an exception is raised: the assignments made before the [raise]
    stay. *)

Definition M (A : Type) : Type := t -> (exception + A) * t.

Definition ret {A : Type} (a : A) : M A := fun self => (inr a, self).

Definition bind {A B : Type} (m : M A) (k : A -> M B) : M B :=
  fun self =>
    match m self with
    | (inl e, self') => (inl e, self')
    | (inr a, self') => k a self'
    end.

Definition raise {A : Type} (e : exception) : M A := fun self => (inl e, self).

(** Read an attribute of [self]. *)
Definition read {A : Type} (attr : t -> A) : M A :=
  fun self => (inr (attr self), self).

(** Assign an attribute of [self]. *)
Definition assign (setter : t -> t) : M unit :=
  fun self => (inr tt, setter self).

Notation "x <- m ;; k" := (bind m (fun x => k))
  (at level 61, m at next level, right associativity).
Notation "m ;; k" := (bind m (fun _ => k))
  (at level 61, right associativity).

(** The line is built before it is appended: when [OrderItem(...)] raises,
    the order is as it was. *)
Definition add_item_from_cart (product : Product.t F) (quantity : Z)
  : M unit :=
  match OrderItem.init product quantity with
  | inl e => raise e
  | inr item =>
      items <- read items ;;
      assign (set_items (items ++ [item]))
  end.

Definition calculate_subtotal : M F :=
  items <- read items ;;
  assign (set_subtotal_calculated (Py.sum (map OrderItem.get_subtotal items))) ;;
  read subtotal_calculated.

(** [now] is the value of [datetime.now()] inside
    [estimate_delivery_time]. *)
Definition calculate_total (total_weight : F) (now : datetime) : M F :=
  subtotal <- calculate_subtotal ;;
  discount_strategy <- read discount_strategy ;;
  assign (set_applied_discount
            (DiscountStrategy.apply_discount discount_strategy subtotal)) ;;
  applied_discount <- read applied_discount ;;
  let amount_after_discount := (subtotal - applied_discount)%float in
  delivery_strategy <- read delivery_strategy ;;
  match delivery_strategy with
  | None =>
      raise (ValueError "Необходимо выбрать стратегию доставки.")
  | Some strategy =>
      customer <- read customer ;;
      assign (set_delivery_cost
                (DeliveryStrategy.calculate_cost strategy
                   (Customer.address customer) total_weight)) ;;
      let info :=
        DeliveryStrategy.estimate_delivery_time strategy
          (Customer.address customer) now in
      assign (set_delivery_info (Some info)) ;;
      delivery_cost <- read delivery_cost ;;
      assign (set_delivery_info
                (Some (DeliveryInfo.set_cost delivery_cost info))) ;;
      assign (set_total_amount (amount_after_discount + delivery_cost)%float) ;;
      read total_amount
  end.

End WithNumber.
Arguments t F : clear implicits.
Arguments M F : clear implicits.
End Order.

(** ** The facade *)

Module OrderPlacementFacade.
Section WithNumber.
Context {F : Type} {num : Number F} {P : Type} {gate : PaymentGate F P}.

(** The text parser behind [float(...)], see [Py.float]. *)
Variable float_of_str : string -> exception + F.

Record t : Type := init {
  payment_processor : P
}.

(** The loop of [place_order] over the cart's entries still to visit. *)
Fixpoint add_items (entries : list (Product.t F * Z)) : Order.M F unit :=
  match entries with
  | [] => Order.ret tt
  | (product, quantity) :: rest =>
      Order.bind (Order.add_item_from_cart product quantity)
        (fun _ => add_items rest)
  end.

(** [order_id] is the [uuid4] drawn by [Order(customer)], [now] the value of
    [datetime.now()] inside [calculate_total].  An exception raised on the way
    leaves [place_order]; the order under construction is then lost. *)
Definition place_order (self : t) (cart : ShoppingCart.t F)
  (customer : Customer.t) (discount_strategy : DiscountStrategy.t F)
  (delivery_strategy : DeliveryStrategy.t) (delivery_details : Py.dict F)
  (payment_details : Py.dict F) (order_id : N) (now : datetime)
  : exception + Order.t F :=
  let order := Order.init order_id customer in
  match Py.float float_of_str (Py.get delivery_details "weight" (Py.VInt 0)) with
  | inl e => inl e
  | inr total_weight =>
      match add_items (ShoppingCart.get_items cart) order with
      | (inl e, _) => inl e
      | (inr _, order) =>
          let order := Order.set_discount_strategy discount_strategy order in
          let order := Order.set_delivery_strategy delivery_strategy order in
          match Order.calculate_total total_weight now order with
          | (inl e, _) => inl e
          | (inr final_amount, order) =>
              if process_payment (payment_processor self) final_amount
                   payment_details
              then inr (Order.set_status OrderStatus.PAID order)
              else inr (Order.set_status OrderStatus.PENDING order)
          end
      end
  end.

End WithNumber.
Arguments t P : clear implicits.
End OrderPlacementFacade.

(** ** The script at the end of [main.py] *)

Module Demo.
Section WithNumber.
Context {F : Type} {num : Number F}.

(** The three products get the identifiers 1, 2 and 3. *)
Definition milk : Product.t F :=
  Product.init 1%N "Молоко" "2.5% жирности" (of_int 85) 100.
Definition bread : Product.t F :=
  Product.init 2%N "Хлеб" "Белый нарезной" (of_int 40) 50.
Definition heavy_item : Product.t F :=
  Product.init 3%N "Гантель 15кг" "Для спорта" (of_int 1200) 10.

Definition client : Customer.t :=
  Customer.init "Иван Петров" "ma@gmail.com" "ул. Ленина, 10, Москва"
    "+7-999-111-22-33".
Definition processor : PaymentProcessor.t := PaymentProcessor.init "Наличкой".

Definition cart : ShoppingCart.t F :=
  let cart := ShoppingCart.init in
  let cart := ShoppingCart.add_item cart milk 2 in
  let cart := ShoppingCart.add_item cart bread 1 in
  ShoppingCart.add_item cart heavy_item 1.

Definition discount_strategy : DiscountStrategy.t F :=
  DiscountStrategy.FixedAmountDiscountStrategy_init (of_int 100).
Definition delivery_strategy : DeliveryStrategy.t :=
  DeliveryStrategy.CourierDeliveryStrategy.

Definition delivery_details : Py.dict F :=
  [("address", Py.VStr (Customer.address client));
   ("weight", Py.VFloat (of_int 16))].
Definition payment_details : Py.dict F :=
  [("card_number", Py.VStr "1234...")].

Definition facade : OrderPlacementFacade.t PaymentProcessor.t :=
  OrderPlacementFacade.init processor.

(** [order_id] and [now] as in [place_order]. *)
Definition final_order (float_of_str : string -> exception + F)
  (order_id : N) (now : datetime) : exception + Order.t F :=
  OrderPlacementFacade.place_order float_of_str facade cart client
    discount_strategy delivery_strategy delivery_details payment_details
    order_id now.

End WithNumber.
End Demo.

(** * Properties *)

(** ** Abbreviations used in the statements *)

(** The exception of [calculate_total] on an order without delivery
    strategy. *)
Definition missing_delivery_strategy : exception :=
  ValueError "Необходимо выбрать стратегию доставки.".

(** The sum of the line totals of an order, as [calculate_subtotal] forms
    it. *)
Definition lines_subtotal {F : Type} {num : Number F} (o : Order.t F) : F :=
  Py.sum (map OrderItem.get_subtotal (Order.items o)).

(** The line that [OrderItem(product, quantity)] builds when the quantity
    converts: its total is the price times the quantity. *)
Definition line {F : Type} {num : Number F} (product : Product.t F)
  (quantity : Z) : OrderItem.t F :=
  OrderItem.mk product quantity (Product.price product * of_int quantity)%float.

(** One such line per entry of a cart's dictionary, in order. *)
Definition lines_of {F : Type} {num : Number F} (d : list (Product.t F * Z))
  : list (OrderItem.t F) :=
  map (fun '(product, quantity) => line product quantity) d.

(** Every quantity of the dictionary converts to a [float]. *)
Definition quantities_convert {F : Type} (d : list (Product.t F * Z)) : Prop :=
  Forall (fun entry => Py.in_float_range (snd entry) = true) d.

(** The value of a dictionary's entries on top of [start]: price times
    quantity, added up in order, as [calculate_subtotal] does when every
    quantity converts. *)
Definition entries_value {F : Type} {num : Number F}
  (d : list (Product.t F * Z)) (start : F) : F :=
  fold_left
    (fun subtotal '(product, quantity) =>
       (subtotal + Product.price product * of_int quantity)%float) d start.

(** A product priced 0.1 in binary64 arithmetic. *)
Definition dime : Product.t spec_float :=
  Product.init 4%N "dime" "" (of_int 1 / of_int 10)%float 1.

(** The exception of a conversion out of range. *)
Definition int_too_large : exception :=
  OverflowError "int too large to convert to float".

(** The order of [place_order] at the moment [calculate_total] is called,
    when every quantity of the cart converts: one line per entry, then both
    strategies attached. *)
Definition prepared_order {F : Type} {num : Number F} (cart : ShoppingCart.t F)
  (customer : Customer.t) (discount_strategy : DiscountStrategy.t F)
  (delivery_strategy : DeliveryStrategy.t) (order_id : N) : Order.t F :=
  Order.set_delivery_strategy delivery_strategy
    (Order.set_discount_strategy discount_strategy
       (Order.set_items (lines_of (ShoppingCart.get_items cart))
          (Order.init order_id customer))).

(** The order a successful [calculate_total] leaves behind. *)
Definition priced {F : Type} {num : Number F} (strategy : DeliveryStrategy.t)
  (total_weight : F) (now : datetime) (o : Order.t F) : Order.t F :=
  let subtotal := lines_subtotal o in
  let discount :=
    DiscountStrategy.apply_discount (Order.discount_strategy o) subtotal in
  let address := Customer.address (Order.customer o) in
  let cost := DeliveryStrategy.calculate_cost strategy address total_weight in
  Order.mk (Order.id o) (Order.customer o) (Order.items o)
    ((subtotal - discount) + cost)%float (Order.status o)
    (Order.discount_strategy o) (Order.delivery_strategy o) discount
    (Some (DeliveryInfo.set_cost cost
             (DeliveryStrategy.estimate_delivery_time strategy address now)))
    subtotal cost.

(** The weight [place_order] reads from the delivery details. *)
Definition weight_of {F : Type} {num : Number F}
  (float_of_str : string -> exception + F) (delivery_details : Py.dict F)
  : exception + F :=
  Py.float float_of_str (Py.get delivery_details "weight" (Py.VInt 0)).

(** The order [place_order] hands to the payment gate. *)
Definition order_to_pay {F : Type} {num : Number F} (cart : ShoppingCart.t F)
  (customer : Customer.t) (discount_strategy : DiscountStrategy.t F)
  (delivery_strategy : DeliveryStrategy.t) (order_id : N) (now : datetime)
  (total_weight : F) : Order.t F :=
  priced delivery_strategy total_weight now
    (prepared_order cart customer discount_strategy delivery_strategy
       order_id).

(** Sample orders in exact arithmetic, built from the objects of the script:
    one without delivery strategy, holding two bottles of milk, and the order
    [place_order] prepares from the script's cart. *)
Definition unconfigured_order : Order.t Q :=
  snd (Order.add_item_from_cart Demo.milk 2 (Order.init 7%N Demo.client)).

Definition configured_order : Order.t Q :=
  prepared_order Demo.cart Demo.client Demo.discount_strategy
    Demo.delivery_strategy 7%N.

(** A text parser that rejects every text; the script never converts one. *)
Definition reject_text {F : Type} (s : string) : exception + F :=
  inl (ValueError s).

(** A payment gate that declines every payment. *)
Definition declining_gate (F : Type) : PaymentGate F unit := {|
  process_payment := fun _ _ _ => false
|}.

(** The identities of the products that a cart's dictionary holds, in
    order. *)
Definition keys {F : Type} (d : list (Product.t F * Z)) : list N :=
  map (fun entry => Product.id (fst entry)) d.

(** No product is a key twice. *)
Definition unique_keys {F : Type} (d : list (Product.t F * Z)) : Prop :=
  NoDup (keys d).

(** Objects with one identity are one object: a key of [d] that has the
    identity of [p] is [p]. *)
Definition known_as {F : Type} (d : list (Product.t F * Z))
  (p : Product.t F) : Prop :=
  forall p' q, In (p', q) d -> Product.same p' p = true -> p' = p.

(** A discount strategy whose stored parameter is in range: a fraction
    between 0 and 1, a fixed amount that is not negative. *)
Definition in_range (strategy : DiscountStrategy.t Q) : Prop :=
  match strategy with
  | DiscountStrategy.NoDiscount => True
  | DiscountStrategy.PercentageDiscountStrategy percentage =>
      (0 <= percentage /\ percentage <= 1)%Q
  | DiscountStrategy.FixedAmountDiscountStrategy fixed_amount =>
      (0 <= fixed_amount)%Q
  end.

(** No line of the order has a negative total. *)
Definition lines_nonnegative (o : Order.t Q) : Prop :=
  Forall (fun item => (0 <= OrderItem.get_subtotal item)%Q) (Order.items o).

(** ** Running the methods of [Order] *)

Section OrderRuns.
Context {F : Type} {num : Number F}.
Implicit Types (o : Order.t F) (w : F) (now : datetime).

Lemma calculate_subtotal_run o :
  Order.calculate_subtotal o
  = (inr (lines_subtotal o),
     Order.set_subtotal_calculated (lines_subtotal o) o).
Proof. reflexivity. Qed.

Lemma calculate_total_unset o w now :
  Order.delivery_strategy o = None ->
  Order.calculate_total w now o
  = (inl missing_delivery_strategy,
     Order.set_applied_discount
       (DiscountStrategy.apply_discount (Order.discount_strategy o)
          (lines_subtotal o))
       (Order.set_subtotal_calculated (lines_subtotal o) o)).
Proof.
  intros Hnone.
  unfold Order.calculate_total, Order.bind, Order.read, Order.assign,
    Order.raise, Order.calculate_subtotal; simpl.
  rewrite Hnone. reflexivity.
Qed.

Lemma calculate_total_attached o w now strategy :
  Order.delivery_strategy o = Some strategy ->
  Order.calculate_total w now o
  = (inr (Order.total_amount (priced strategy w now o)),
     priced strategy w now o).
Proof.
  intros Hsome.
  unfold Order.calculate_total, Order.bind, Order.read, Order.assign,
    Order.raise, Order.calculate_subtotal; simpl.
  rewrite Hsome. reflexivity.
Qed.

(** A call that returns ran on an order with a delivery strategy. *)
Lemma calculate_total_returns_inv o w now total o' :
  Order.calculate_total w now o = (inr total, o') ->
  exists strategy,
    Order.delivery_strategy o = Some strategy
    /\ o' = priced strategy w now o
    /\ total = Order.total_amount o'.
Proof.
  intros Hrun.
  destruct (Order.delivery_strategy o) as [strategy|] eqn:Hs.
  - rewrite (calculate_total_attached o w now strategy Hs) in Hrun.
    inversion Hrun; subst. exists strategy. repeat split; reflexivity.
  - rewrite (calculate_total_unset o w now Hs) in Hrun. discriminate.
Qed.

End OrderRuns.

(** ** Adding lines to an order *)

Section OrderLines.
Context {F : Type} {num : Number F}.
Implicit Types (o : Order.t F) (p : Product.t F) (q : Z)
  (d : list (Product.t F * Z)).

Lemma set_items_same o : Order.set_items (Order.items o) o = o.
Proof. destruct o; reflexivity. Qed.

Lemma add_item_from_cart_run p q o :
  Py.in_float_range q = true ->
  Order.add_item_from_cart p q o
  = (inr tt, Order.set_items (Order.items o ++ [line p q]) o).
Proof.
  intros Hq. unfold Order.add_item_from_cart, OrderItem.init, Py.float_of_int.
  rewrite Hq. reflexivity.
Qed.

Lemma add_item_from_cart_raises p q o :
  Py.in_float_range q = false ->
  Order.add_item_from_cart p q o = (inl int_too_large, o).
Proof.
  intros Hq. unfold Order.add_item_from_cart, OrderItem.init, Py.float_of_int.
  rewrite Hq. reflexivity.
Qed.

Lemma add_items_run d o :
  quantities_convert d ->
  OrderPlacementFacade.add_items d o
  = (inr tt, Order.set_items (Order.items o ++ lines_of d) o).
Proof.
  intros Hd. revert o.
  induction Hd as [|[p q] d Hq _ IH]; intros o; simpl.
  - now rewrite app_nil_r, set_items_same.
  - unfold Order.bind. rewrite (add_item_from_cart_run p q o Hq), IH.
    unfold Order.set_items. simpl. now rewrite <- app_assoc.
Qed.

Lemma add_items_raises d o :
  Exists (fun entry => Py.in_float_range (snd entry) = false) d ->
  exists o', OrderPlacementFacade.add_items d o = (inl int_too_large, o').
Proof.
  intros Hd. revert o.
  induction d as [|[p q] d IH]; intros o; [inversion Hd|].
  simpl. unfold Order.bind.
  destruct (Py.in_float_range q) eqn:Hq.
  - rewrite (add_item_from_cart_run p q o Hq). apply IH.
    inversion Hd as [entry rest Hhead | entry rest Htail]; subst;
      [simpl in Hhead; congruence | exact Htail].
  - rewrite (add_item_from_cart_raises p q o Hq). eexists. reflexivity.
Qed.

Lemma quantities_convert_or_not d :
  quantities_convert d
  \/ Exists (fun entry => Py.in_float_range (snd entry) = false) d.
Proof.
  induction d as [|[p q] d [IH | IH]].
  - left. constructor.
  - destruct (Py.in_float_range q) eqn:Hq.
    + left. constructor; assumption.
    + right. left. exact Hq.
  - right. right. exact IH.
Qed.

End OrderLines.

(** ** Running [place_order] *)

Section FacadeRuns.
Context {F : Type} {num : Number F} {P : Type} {gate : PaymentGate F P}.
Variable float_of_str : string -> exception + F.
Implicit Types (self : OrderPlacementFacade.t P) (cart : ShoppingCart.t F)
  (customer : Customer.t) (ds : DiscountStrategy.t F)
  (dls : DeliveryStrategy.t) (dd pd : Py.dict F) (oid : N) (now : datetime).

Lemma place_order_run self cart customer ds dls dd pd oid now w :
  weight_of float_of_str dd = inr w ->
  quantities_convert (ShoppingCart.get_items cart) ->
  OrderPlacementFacade.place_order float_of_str self cart customer ds dls dd
    pd oid now
  = inr (Order.set_status
           (if process_payment (OrderPlacementFacade.payment_processor self)
                 (Order.total_amount
                    (order_to_pay cart customer ds dls oid now w)) pd
            then OrderStatus.PAID else OrderStatus.PENDING)
           (order_to_pay cart customer ds dls oid now w)).
Proof.
  intros Hw Hcart. unfold weight_of in Hw.
  unfold OrderPlacementFacade.place_order. rewrite Hw.
  rewrite (add_items_run _ _ Hcart).
  change (Order.set_delivery_strategy dls _)
    with (prepared_order cart customer ds dls oid).
  rewrite (calculate_total_attached _ w now dls) by reflexivity.
  fold (order_to_pay cart customer ds dls oid now w).
  destruct (process_payment _ _ _); reflexivity.
Qed.

Lemma place_order_raises self cart customer ds dls dd pd oid now e :
  weight_of float_of_str dd = inl e ->
  OrderPlacementFacade.place_order float_of_str self cart customer ds dls dd
    pd oid now = inl e.
Proof.
  intros Hw. unfold weight_of in Hw.
  unfold OrderPlacementFacade.place_order. rewrite Hw. reflexivity.
Qed.

Lemma place_order_overflows self cart customer ds dls dd pd oid now w :
  weight_of float_of_str dd = inr w ->
  Exists (fun entry => Py.in_float_range (snd entry) = false)
    (ShoppingCart.get_items cart) ->
  OrderPlacementFacade.place_order float_of_str self cart customer ds dls dd
    pd oid now = inl int_too_large.
Proof.
  intros Hw Hcart. unfold weight_of in Hw.
  unfold OrderPlacementFacade.place_order. rewrite Hw.
  destruct (add_items_raises _ (Order.init oid customer) Hcart) as [o' Hrun].
  rewrite Hrun. reflexivity.
Qed.

Lemma place_order_returns_inv self cart customer ds dls dd pd oid now o :
  OrderPlacementFacade.place_order float_of_str self cart customer ds dls dd
    pd oid now = inr o ->
  exists w,
    weight_of float_of_str dd = inr w
    /\ quantities_convert (ShoppingCart.get_items cart)
    /\ o = Order.set_status
             (if process_payment (OrderPlacementFacade.payment_processor self)
                   (Order.total_amount
                      (order_to_pay cart customer ds dls oid now w)) pd
              then OrderStatus.PAID else OrderStatus.PENDING)
             (order_to_pay cart customer ds dls oid now w).
Proof.
  intros Hrun. destruct (weight_of float_of_str dd) as [e|w] eqn:Hw.
  - rewrite (place_order_raises _ _ _ _ _ _ _ _ _ e Hw) in Hrun. discriminate.
  - destruct (quantities_convert_or_not (ShoppingCart.get_items cart))
      as [Hcart | Hcart].
    + rewrite (place_order_run _ _ _ _ _ _ _ _ _ w Hw Hcart) in Hrun.
      exists w. split; [reflexivity|]. split; [exact Hcart | congruence].
    + rewrite (place_order_overflows _ _ _ _ _ _ _ _ _ w Hw Hcart) in Hrun.
      discriminate.
Qed.

End FacadeRuns.

(** ** Exact arithmetic *)

Section Exact.
Local Open Scope Q_scope.

Lemma exact_ltb_true (a b : Q) : ltb a b = true <-> a < b.
Proof.
  simpl. rewrite negb_true_iff, <- not_true_iff_false, Qle_bool_iff.
  split; [apply Qnot_le_lt | apply Qlt_not_le].
Qed.

Lemma exact_min_le_l (a b : Q) : Py.min a b <= a.
Proof.
  unfold Py.min. destruct (ltb b a) eqn:Hlt.
  - apply Qlt_le_weak, exact_ltb_true, Hlt.
  - apply Qle_refl.
Qed.

Lemma exact_min_glb (a b c : Q) : c <= a -> c <= b -> c <= Py.min a b.
Proof. intros Ha Hb. unfold Py.min. destruct (ltb b a); assumption. Qed.

Lemma exact_fraction_bounds (p : Q) :
  0 <= p -> p <= 100 -> 0 <= p / of_int 100 /\ p / of_int 100 <= 1.
Proof.
  intros H0 H100.
  assert (Hdiv : p / of_int 100 == p * (1 # 100)) by (simpl; field).
  rewrite Hdiv. split; lra.
Qed.

Lemma exact_fold_add_shift (xs : list Q) (a : Q) :
  fold_left add xs a == a + fold_left add xs 0.
Proof.
  revert a. induction xs as [|x xs IH]; intros a; simpl.
  - ring.
  - rewrite (IH (a + x)), (IH (0 + x)). ring.
Qed.

Lemma exact_sum_app (xs ys : list Q) :
  Py.sum (xs ++ ys) == Py.sum xs + Py.sum ys.
Proof.
  unfold Py.sum. rewrite fold_left_app.
  rewrite exact_fold_add_shift. reflexivity.
Qed.

End Exact.

(** ** The cart's dictionary *)

Section CartFacts.
Context {F : Type}.
Implicit Types (d : list (Product.t F * Z)) (p : Product.t F) (q : Z).

Lemma same_refl p : Product.same p p = true.
Proof. apply N.eqb_refl. Qed.

Lemma getitem_setitem d p q :
  ShoppingCart.getitem (ShoppingCart.setitem d p q) p = Some q.
Proof.
  induction d as [|[p' q'] d IH]; simpl.
  - rewrite same_refl. reflexivity.
  - destruct (Product.same p' p) eqn:Hsame; simpl; rewrite Hsame;
      [reflexivity | exact IH].
Qed.

Lemma setitem_setitem d p q q' :
  ShoppingCart.setitem (ShoppingCart.setitem d p q) p q'
  = ShoppingCart.setitem d p q'.
Proof.
  induction d as [|[p0 q0] d IH]; simpl.
  - rewrite same_refl. reflexivity.
  - destruct (Product.same p0 p) eqn:Hsame; simpl; rewrite Hsame;
      [reflexivity | now rewrite IH].
Qed.

Lemma length_setitem d p q :
  List.length (ShoppingCart.setitem d p q)
  = match ShoppingCart.getitem d p with
    | Some _ => List.length d
    | None => S (List.length d)
    end.
Proof.
  induction d as [|[p0 q0] d IH]; simpl; [reflexivity|].
  destruct (Product.same p0 p); simpl; [reflexivity|].
  rewrite IH. destruct (ShoppingCart.getitem d p); reflexivity.
Qed.

Lemma add_item_add_item (c : ShoppingCart.t F) p q1 q2 :
  ShoppingCart.add_item (ShoppingCart.add_item c p q1) p q2
  = ShoppingCart.add_item c p (q1 + q2).
Proof.
  unfold ShoppingCart.add_item.
  destruct (ShoppingCart.getitem (ShoppingCart.items c) p) as [q0|]; simpl;
    rewrite getitem_setitem, setitem_setitem; [|reflexivity].
  now rewrite Z.add_assoc.
Qed.

End CartFacts.

(** ** Stored quote, cart entries and line totals *)

(** The quote stored by a call that returns is the strategy's estimate with
    its cost replaced by the result of [calculate_cost]. *)
Lemma stored_quote {F : Type} {num : Number F} (o : Order.t F) (w : F)
  (now : datetime) (total : F) (o' : Order.t F) :
  Order.calculate_total w now o = (inr total, o') ->
  exists strategy,
    Order.delivery_strategy o = Some strategy
    /\ Order.delivery_info o'
       = Some (DeliveryInfo.set_cost
                 (DeliveryStrategy.calculate_cost strategy
                    (Customer.address (Order.customer o)) w)
                 (DeliveryStrategy.estimate_delivery_time strategy
                    (Customer.address (Order.customer o)) now))
    /\ Order.delivery_cost o'
       = DeliveryStrategy.calculate_cost strategy
           (Customer.address (Order.customer o)) w.
Proof.
  intros Hrun.
  destruct (calculate_total_returns_inv o w now total o' Hrun)
    as [strategy [Hs [Ho' _]]].
  exists strategy. rewrite Ho'. split; [exact Hs | split; reflexivity].
Qed.

Lemma length_add_item {F : Type} (c : ShoppingCart.t F) (p : Product.t F)
  (q : Z) :
  List.length (ShoppingCart.items (ShoppingCart.add_item c p q))
  = match ShoppingCart.getitem (ShoppingCart.items c) p with
    | Some _ => List.length (ShoppingCart.items c)
    | None => S (List.length (ShoppingCart.items c))
    end.
Proof.
  unfold ShoppingCart.add_item.
  destruct (ShoppingCart.getitem (ShoppingCart.items c) p) as [q0|] eqn:Hget;
    simpl; rewrite length_setitem, Hget; reflexivity.
Qed.

Lemma getitem_add_item {F : Type} (c : ShoppingCart.t F) (p : Product.t F)
  (q : Z) :
  ShoppingCart.getitem (ShoppingCart.items (ShoppingCart.add_item c p q)) p
  = Some match ShoppingCart.getitem (ShoppingCart.items c) p with
         | Some current => current + q
         | None => q
         end.
Proof.
  unfold ShoppingCart.add_item.
  destruct (ShoppingCart.getitem (ShoppingCart.items c) p); simpl;
    apply getitem_setitem.
Qed.

Lemma exact_line_totals_add (p : Product.t Q) (q1 q2 : Z) :
  (OrderItem.get_subtotal (line p q1) + OrderItem.get_subtotal (line p q2)
   == OrderItem.get_subtotal (line p (q1 + q2)))%Q.
Proof.
  simpl. rewrite inject_Z_plus. ring.
Qed.

(** * The claims *)

(** ** Discount strategies *)

(** C1 (the code departs from the claim).  [NoDiscount.apply_discount] returns
    its argument, for every arithmetic and every amount; at the amount 100 the
    result is 100, which is not 0. *)
Theorem no_discount_returns_the_amount :
  (forall (F : Type) (num : Number F) (amount : F),
      DiscountStrategy.apply_discount DiscountStrategy.NoDiscount amount
      = amount)
  /\ DiscountStrategy.apply_discount DiscountStrategy.NoDiscount 100%Q = 100%Q
  /\ ~ (DiscountStrategy.apply_discount DiscountStrategy.NoDiscount 100%Q
        == 0)%Q.
Proof.
  split; [reflexivity|]. split; [reflexivity|].
  simpl. intros H. discriminate H.
Qed.

(** With the default strategy [NoDiscount] an order is therefore discounted by
    its whole subtotal: the script's cart with courier delivery costs 400. *)
Example no_discount_order_pays_delivery_only :
  let o := Order.set_discount_strategy DiscountStrategy.NoDiscount
             configured_order in
  fst (Order.calculate_total 16%Q 0 o) = inr 400%Q
  /\ Order.applied_discount (snd (Order.calculate_total 16%Q 0 o)) = 1410%Q.
Proof. split; reflexivity. Qed.

(** C2, as stated, fails: a percentage above 100 gives a discount above the
    subtotal, a negative percentage or a negative fixed amount gives a
    negative discount. *)
Lemma discount_bounds_counterexample :
  ((0 <= 1)%Q
   /\ ~ (DiscountStrategy.apply_discount
           (DiscountStrategy.PercentageDiscountStrategy_init 200) 1 <= 1)%Q)
  /\ ((0 <= 1)%Q
      /\ ~ (0 <= DiscountStrategy.apply_discount
                   (DiscountStrategy.PercentageDiscountStrategy_init (-10)) 1)%Q)
  /\ ((0 <= 1)%Q
      /\ ~ (0 <= DiscountStrategy.apply_discount
                   (DiscountStrategy.FixedAmountDiscountStrategy_init (-5)) 1)%Q).
Proof.
  repeat split; try (intros H; vm_compute in H; apply H; reflexivity);
    intros H; discriminate H.
Qed.

(** C2 (amended).  In exact arithmetic, for every subtotal [s >= 0] the
    discount lies between 0 and [s] for [NoDiscount], for a percentage
    strategy constructed with [0 <= p <= 100], and for a fixed-amount strategy
    constructed with [f >= 0]. *)
Theorem discount_bounds (s : Q) :
  (0 <= s)%Q ->
  (0 <= DiscountStrategy.apply_discount DiscountStrategy.NoDiscount s
   /\ DiscountStrategy.apply_discount DiscountStrategy.NoDiscount s <= s)%Q
  /\ (forall p : Q,
         (0 <= p)%Q -> (p <= 100)%Q ->
         (0 <= DiscountStrategy.apply_discount
                 (DiscountStrategy.PercentageDiscountStrategy_init p) s
          /\ DiscountStrategy.apply_discount
               (DiscountStrategy.PercentageDiscountStrategy_init p) s <= s)%Q)
  /\ (forall f : Q,
         (0 <= f)%Q ->
         (0 <= DiscountStrategy.apply_discount
                 (DiscountStrategy.FixedAmountDiscountStrategy_init f) s
          /\ DiscountStrategy.apply_discount
               (DiscountStrategy.FixedAmountDiscountStrategy_init f) s <= s)%Q).
Proof.
  intros Hs. split; [|split].
  - simpl. split; [exact Hs | apply Qle_refl].
  - intros p H0 H100.
    destruct (exact_fraction_bounds p H0 H100) as [Hlo Hhi].
    unfold DiscountStrategy.PercentageDiscountStrategy_init.
    cbn [DiscountStrategy.apply_discount].
    set (fraction := (p / of_int 100)%float).
    change (0 <= fraction)%Q in Hlo. change (fraction <= 1)%Q in Hhi.
    change (s * fraction)%float with (s * fraction)%Q.
    clearbody fraction. split; nra.
  - intros f Hf.
    unfold DiscountStrategy.FixedAmountDiscountStrategy_init.
    cbn [DiscountStrategy.apply_discount].
    split; [apply exact_min_glb; assumption | apply exact_min_le_l].
Qed.

Lemma discount_bounds_witness :
  (0 <= DiscountStrategy.apply_discount DiscountStrategy.NoDiscount 1410
   /\ DiscountStrategy.apply_discount DiscountStrategy.NoDiscount 1410 <= 1410)%Q
  /\ (0 <= DiscountStrategy.apply_discount
             (DiscountStrategy.PercentageDiscountStrategy_init 20) 1410
      /\ DiscountStrategy.apply_discount
           (DiscountStrategy.PercentageDiscountStrategy_init 20) 1410
         <= 1410)%Q
  /\ (0 <= DiscountStrategy.apply_discount
             (DiscountStrategy.FixedAmountDiscountStrategy_init 100) 1410
      /\ DiscountStrategy.apply_discount
           (DiscountStrategy.FixedAmountDiscountStrategy_init 100) 1410
         <= 1410)%Q.
Proof.
  assert (Hs : (0 <= 1410)%Q) by (intros H; discriminate H).
  destruct (discount_bounds 1410 Hs) as [Hnone [Hpct Hfixed]].
  split; [exact Hnone|]. split.
  - apply Hpct; intros H; discriminate H.
  - apply Hfixed; intros H; discriminate H.
Defined.

(** ** [calculate_total] *)

(** C3.  On an order without delivery strategy [calculate_total] raises the
    [ValueError] of the missing strategy, whatever the lines, the discount
    strategy and the weight; on an order with a delivery strategy it returns a
    total. *)
Theorem calculate_total_raises_iff_unconfigured {F : Type} {num : Number F}
  (o : Order.t F) (w : F) (now : datetime) :
  (Order.delivery_strategy o = None ->
   fst (Order.calculate_total w now o) = inl missing_delivery_strategy)
  /\ (forall strategy,
         Order.delivery_strategy o = Some strategy ->
         exists total, fst (Order.calculate_total w now o) = inr total).
Proof.
  split.
  - intros Hnone. now rewrite (calculate_total_unset o w now Hnone).
  - intros strategy Hsome.
    rewrite (calculate_total_attached o w now strategy Hsome).
    eexists. reflexivity.
Qed.

Lemma calculate_total_raises_witness :
  fst (Order.calculate_total 16%Q 0 unconfigured_order)
  = inl missing_delivery_strategy
  /\ exists total, fst (Order.calculate_total 16%Q 0 configured_order) = inr total.
Proof.
  split.
  - apply (proj1 (calculate_total_raises_iff_unconfigured
                    unconfigured_order 16%Q 0)).
    reflexivity.
  - apply (proj2 (calculate_total_raises_iff_unconfigured
                    configured_order 16%Q 0)
             DeliveryStrategy.CourierDeliveryStrategy).
    reflexivity.
Defined.

(** C4.  After a call of [calculate_total] that returns, the recorded total is
    the value of [(subtotal_calculated - applied_discount) + delivery_cost]
    over the recorded fields, and it is the returned value; on a freshly
    constructed order the four derived fields are zero. *)
Theorem calculate_total_records_the_breakdown {F : Type} {num : Number F} :
  (forall (o : Order.t F) (w : F) (now : datetime) (total : F)
      (o' : Order.t F),
      Order.calculate_total w now o = (inr total, o') ->
      Order.total_amount o'
      = ((Order.subtotal_calculated o' - Order.applied_discount o')
         + Order.delivery_cost o')%float
      /\ total = Order.total_amount o')
  /\ (forall id customer,
         Order.total_amount (Order.init id customer) = of_int 0
         /\ Order.subtotal_calculated (Order.init id customer) = of_int 0
         /\ Order.applied_discount (Order.init id customer) = of_int 0
         /\ Order.delivery_cost (Order.init id customer) = of_int 0).
Proof.
  split.
  - intros o w now total o' Hrun.
    destruct (calculate_total_returns_inv o w now total o' Hrun)
      as [strategy [_ [Ho' Htotal]]].
    split; [|exact Htotal]. rewrite Ho'. reflexivity.
  - intros id customer. repeat split; reflexivity.
Qed.

Lemma calculate_total_breakdown_witness :
  Order.total_amount (priced Demo.delivery_strategy 16%Q 0 configured_order)
  = ((Order.subtotal_calculated
        (priced Demo.delivery_strategy 16%Q 0 configured_order)
      - Order.applied_discount
          (priced Demo.delivery_strategy 16%Q 0 configured_order))
     + Order.delivery_cost
         (priced Demo.delivery_strategy 16%Q 0 configured_order))%float
  /\ 1710%Q
     = Order.total_amount (priced Demo.delivery_strategy 16%Q 0 configured_order).
Proof.
  apply (proj1 calculate_total_records_the_breakdown configured_order 16%Q 0).
  reflexivity.
Defined.

(** C5.  After a call of [calculate_total] that returns, the stored quote
    carries the cost returned by [calculate_cost] for the customer's address
    and the given weight, which is also the recorded delivery cost; for the
    courier and postal strategies this differs from the cost their
    [estimate_delivery_time] put into the quote. *)
Theorem delivery_quote_carries_the_calculated_cost
  (o : Order.t Q) (w : Q) (now : datetime) (total : Q) (o' : Order.t Q) :
  Order.calculate_total w now o = (inr total, o') ->
  exists strategy info,
    Order.delivery_strategy o = Some strategy
    /\ Order.delivery_info o' = Some info
    /\ DeliveryInfo.cost info
       = DeliveryStrategy.calculate_cost strategy
           (Customer.address (Order.customer o)) w
    /\ DeliveryInfo.cost info = Order.delivery_cost o'
    /\ (strategy <> DeliveryStrategy.PickupDeliveryStrategy ->
        ~ (DeliveryInfo.cost info
           == DeliveryInfo.cost
                (DeliveryStrategy.estimate_delivery_time strategy
                   (Customer.address (Order.customer o)) now))%Q).
Proof.
  intros Hrun.
  destruct (stored_quote o w now total o' Hrun)
    as [strategy [Hs [Hinfo Hcost]]].
  exists strategy. eexists. split; [exact Hs|]. split; [exact Hinfo|].
  split; [reflexivity|]. split; [now rewrite Hcost|].
  intros Hpickup.
  destruct strategy; [contradiction | |]; simpl; intros H; discriminate H.
Qed.

Lemma delivery_quote_witness :
  exists strategy info,
    Order.delivery_strategy configured_order = Some strategy
    /\ Order.delivery_info
         (priced Demo.delivery_strategy 16%Q 0 configured_order) = Some info
    /\ DeliveryInfo.cost info
       = DeliveryStrategy.calculate_cost strategy
           (Customer.address (Order.customer configured_order)) 16%Q
    /\ DeliveryInfo.cost info
       = Order.delivery_cost
           (priced Demo.delivery_strategy 16%Q 0 configured_order)
    /\ (strategy <> DeliveryStrategy.PickupDeliveryStrategy ->
        ~ (DeliveryInfo.cost info
           == DeliveryInfo.cost
                (DeliveryStrategy.estimate_delivery_time strategy
                   (Customer.address (Order.customer configured_order))
                   0%Z))%Q).
Proof.
  apply (delivery_quote_carries_the_calculated_cost configured_order 16%Q 0
           1710%Q).
  reflexivity.
Defined.

(** C9.  A call of [calculate_total] that raises for want of a delivery
    strategy has already assigned [subtotal_calculated] and
    [applied_discount] from the current lines and discount strategy, and the
    other attributes are as before the call; so the order after a failed call
    can differ from the order before it. *)
Theorem failed_calculate_total_keeps_its_assignments :
  (forall (F : Type) (num : Number F) (o : Order.t F) (w : F) (now : datetime),
      Order.delivery_strategy o = None ->
      exists o',
        Order.calculate_total w now o = (inl missing_delivery_strategy, o')
        /\ Order.subtotal_calculated o' = lines_subtotal o
        /\ Order.applied_discount o'
           = DiscountStrategy.apply_discount (Order.discount_strategy o)
               (lines_subtotal o)
        /\ Order.delivery_cost o' = Order.delivery_cost o
        /\ Order.delivery_info o' = Order.delivery_info o
        /\ Order.total_amount o' = Order.total_amount o
        /\ Order.status o' = Order.status o)
  /\ (exists (o : Order.t Q) (w : Q) (now : datetime),
         Order.delivery_strategy o = None
         /\ snd (Order.calculate_total w now o) <> o).
Proof.
  split.
  - intros F num o w now Hnone. eexists. split.
    + apply (calculate_total_unset o w now Hnone).
    + repeat split; reflexivity.
  - exists unconfigured_order, 0%Q, 0. split; [reflexivity|].
    intros Heq. apply (f_equal Order.subtotal_calculated) in Heq.
    vm_compute in Heq. discriminate Heq.
Qed.

Lemma failed_calculate_total_witness :
  exists o',
    Order.calculate_total 0%Q 0 unconfigured_order
    = (inl missing_delivery_strategy, o')
    /\ Order.subtotal_calculated o' = lines_subtotal unconfigured_order
    /\ Order.applied_discount o'
       = DiscountStrategy.apply_discount
           (Order.discount_strategy unconfigured_order)
           (lines_subtotal unconfigured_order)
    /\ Order.delivery_cost o' = Order.delivery_cost unconfigured_order
    /\ Order.delivery_info o' = Order.delivery_info unconfigured_order
    /\ Order.total_amount o' = Order.total_amount unconfigured_order
    /\ Order.status o' = Order.status unconfigured_order.
Proof.
  apply (proj1 failed_calculate_total_keeps_its_assignments Q exact
           unconfigured_order 0%Q 0).
  reflexivity.
Defined.

(** ** Order lines and cart entries *)

(** C6, as stated, fails on the order's side.  In binary64 arithmetic two
    lines of a product priced 0.1, with quantities 1 and 5, add up to another
    subtotal than one line with quantity 6; and two quantities that convert to
    a [float] can have a sum that does not, so that the two lines are added
    and the single line is refused. *)
Lemma order_lines_counterexample :
  (exists o2 o1 : Order.t spec_float,
      Order.add_item_from_cart dime 5
        (snd (Order.add_item_from_cart dime 1 (Order.init 7%N Demo.client)))
      = (inr tt, o2)
      /\ Order.add_item_from_cart dime (1 + 5) (Order.init 7%N Demo.client)
         = (inr tt, o1)
      /\ SFeqb (lines_subtotal o2) (lines_subtotal o1) = false)
  /\ (exists o2 : Order.t Q,
         Order.add_item_from_cart Demo.milk (2 ^ 1023)
           (snd (Order.add_item_from_cart Demo.milk (2 ^ 1023)
                   (Order.init 7%N Demo.client)))
         = (inr tt, o2)
         /\ Order.add_item_from_cart Demo.milk (2 ^ 1023 + 2 ^ 1023)
              (Order.init 7%N Demo.client)
            = (inl int_too_large, Order.init 7%N Demo.client)).
Proof.
  split.
  - eexists. eexists. split; [reflexivity|]. split; [reflexivity|].
    vm_compute. reflexivity.
  - eexists. split; [vm_compute; reflexivity|].
    apply add_item_from_cart_raises. vm_compute. reflexivity.
Qed.

(** C6 (amended).  Adding a product to an order twice, with quantities that
    convert to a [float], appends two lines, each with the price times its
    quantity as total; in exact arithmetic the two totals add up to the price
    times the summed quantity, and when the summed quantity converts too, the
    order's subtotal is that of the order with one line of the summed
    quantity.  Adding a product to a cart twice gives the cart that adding it
    once with the summed quantity gives: one entry for the product, with the
    summed quantity on top of what the cart held for it. *)
Theorem order_appends_and_cart_merges :
  (forall (o : Order.t Q) (p : Product.t Q) (q1 q2 : Z),
      Py.in_float_range q1 = true ->
      Py.in_float_range q2 = true ->
      exists o2,
        Order.add_item_from_cart p q2 (snd (Order.add_item_from_cart p q1 o))
        = (inr tt, o2)
        /\ Order.items o2 = (Order.items o ++ [line p q1; line p q2])%list
        /\ (OrderItem.get_subtotal (line p q1)
            + OrderItem.get_subtotal (line p q2)
            == Product.price p * inject_Z (q1 + q2))%Q
        /\ (Py.in_float_range (q1 + q2) = true ->
            exists o1,
              Order.add_item_from_cart p (q1 + q2) o = (inr tt, o1)
              /\ Order.items o1 = (Order.items o ++ [line p (q1 + q2)])%list
              /\ (lines_subtotal o2 == lines_subtotal o1)%Q))
  /\ (forall (F : Type) (c : ShoppingCart.t F) (p : Product.t F) (q1 q2 : Z),
         ShoppingCart.add_item (ShoppingCart.add_item c p q1) p q2
         = ShoppingCart.add_item c p (q1 + q2)
         /\ ShoppingCart.getitem
              (ShoppingCart.items
                 (ShoppingCart.add_item (ShoppingCart.add_item c p q1) p q2))
              p
            = Some match ShoppingCart.getitem (ShoppingCart.items c) p with
                   | Some current => current + (q1 + q2)
                   | None => q1 + q2
                   end
         /\ List.length
              (ShoppingCart.items
                 (ShoppingCart.add_item (ShoppingCart.add_item c p q1) p q2))
            = List.length (ShoppingCart.items (ShoppingCart.add_item c p q1)))
  /\ (forall (F : Type) (p : Product.t F) (q1 q2 : Z),
         ShoppingCart.add_item
           (ShoppingCart.add_item ShoppingCart.init p q1) p q2
         = ShoppingCart.mk [(p, q1 + q2)]).
Proof.
  split; [|split].
  - intros o p q1 q2 Hq1 Hq2.
    rewrite (add_item_from_cart_run p q1 o Hq1). cbn [snd].
    rewrite (add_item_from_cart_run p q2 _ Hq2).
    eexists. split; [reflexivity|].
    cbn [Order.set_items Order.items]. rewrite <- app_assoc.
    split; [reflexivity|]. split.
    + rewrite exact_line_totals_add. reflexivity.
    + intros Hsum. rewrite (add_item_from_cart_run p (q1 + q2) o Hsum).
      eexists. split; [reflexivity|]. split; [reflexivity|].
      unfold lines_subtotal. cbn [Order.set_items Order.items app].
      rewrite !map_app, !exact_sum_app. simpl map.
      unfold Py.sum at 2 4. simpl fold_left.
      rewrite inject_Z_plus. simpl. ring.
  - intros F c p q1 q2. split; [|split].
    + apply add_item_add_item.
    + rewrite add_item_add_item. apply getitem_add_item.
    + rewrite add_item_add_item, !length_add_item. reflexivity.
  - intros F p q1 q2. rewrite add_item_add_item.
    reflexivity.
Qed.

Lemma order_appends_witness :
  exists o2,
    Order.add_item_from_cart Demo.milk 3
      (snd (Order.add_item_from_cart Demo.milk 2 (Order.init 7%N Demo.client)))
    = (inr tt, o2)
    /\ Order.items o2
       = (Order.items (Order.init 7%N Demo.client)
          ++ [line Demo.milk 2; line Demo.milk 3])%list
    /\ (OrderItem.get_subtotal (line Demo.milk 2)
        + OrderItem.get_subtotal (line Demo.milk 3)
        == Product.price Demo.milk * inject_Z (2 + 3))%Q
    /\ (Py.in_float_range (2 + 3) = true ->
        exists o1,
          Order.add_item_from_cart Demo.milk (2 + 3)
            (Order.init 7%N Demo.client) = (inr tt, o1)
          /\ Order.items o1
             = (Order.items (Order.init 7%N Demo.client)
                ++ [line Demo.milk (2 + 3)])%list
          /\ (lines_subtotal o2 == lines_subtotal o1)%Q).
Proof.
  apply (proj1 order_appends_and_cart_merges (Order.init 7%N Demo.client)
           Demo.milk 2 3); reflexivity.
Defined.

(** ** The placement workflow *)

(** C7.  In exact arithmetic the script's cart has subtotal 1410, and the
    order placed from it with the fixed discount of 100, courier delivery and
    weight 16 records subtotal 1410, discount 100, delivery cost 400 and total
    1710, whatever the identifier and the time; the courier's cost is 400 for
    every address and weight. *)
Theorem script_scenario :
  (exists s : Q,
      ShoppingCart.calculate_subtotal Demo.cart = inr s /\ (s == 1410)%Q)
  /\ (forall (float_of_str : string -> exception + Q) (order_id : N)
        (now : datetime),
         exists o,
           Demo.final_order float_of_str order_id now = inr o
           /\ (Order.subtotal_calculated o == 1410)%Q
           /\ (Order.applied_discount o == 100)%Q
           /\ (Order.delivery_cost o == 400)%Q
           /\ (Order.total_amount o == 1710)%Q)
  /\ (forall (address : string) (total_weight : Q),
         DeliveryStrategy.calculate_cost
           DeliveryStrategy.CourierDeliveryStrategy address total_weight
         = 400%Q).
Proof.
  split; [eexists; split; reflexivity|]. split; [|reflexivity].
  intros float_of_str order_id now. eexists. split.
  - unfold Demo.final_order.
    apply (place_order_run float_of_str _ _ _ _ _ _ _ _ _ 16%Q);
      [reflexivity | repeat constructor].
  - repeat split; reflexivity.
Qed.

(** The same run in binary64 arithmetic gives the same four numbers. *)
Example script_scenario_binary64 :
  ShoppingCart.calculate_subtotal (F := spec_float) Demo.cart
  = inr (of_int 1410)
  /\ exists o : Order.t spec_float,
       Demo.final_order reject_text 7%N 0 = inr o
       /\ Order.subtotal_calculated o = of_int 1410
       /\ Order.applied_discount o = of_int 100
       /\ Order.delivery_cost o = of_int 400
       /\ Order.total_amount o = of_int 1710.
Proof.
  split; [vm_compute; reflexivity|].
  eexists. split; [vm_compute; reflexivity|].
  repeat split; vm_compute; reflexivity.
Qed.

(** C8.  Every order that [place_order] returns has the status [Paid] if the
    payment gate accepted the order's total and [Pending] if it declined, and
    so one of the two; and [place_order] returns an order whenever the weight
    entry of the delivery details and the quantities of the cart convert to a
    [float]. *)
Theorem place_order_status {F : Type} {num : Number F} {P : Type}
  {gate : PaymentGate F P} (float_of_str : string -> exception + F)
  (self : OrderPlacementFacade.t P) (cart : ShoppingCart.t F)
  (customer : Customer.t) (ds : DiscountStrategy.t F)
  (dls : DeliveryStrategy.t) (dd pd : Py.dict F) (oid : N) (now : datetime) :
  (forall o,
      OrderPlacementFacade.place_order float_of_str self cart customer ds dls
        dd pd oid now = inr o ->
      (process_payment (OrderPlacementFacade.payment_processor self)
         (Order.total_amount o) pd = true ->
       Order.status o = OrderStatus.PAID)
      /\ (process_payment (OrderPlacementFacade.payment_processor self)
            (Order.total_amount o) pd = false ->
          Order.status o = OrderStatus.PENDING)
      /\ (Order.status o = OrderStatus.PAID
          \/ Order.status o = OrderStatus.PENDING))
  /\ (forall w : F,
         weight_of float_of_str dd = inr w ->
         quantities_convert (ShoppingCart.get_items cart) ->
         exists o,
           OrderPlacementFacade.place_order float_of_str self cart customer
             ds dls dd pd oid now = inr o).
Proof.
  split.
  - intros o Hrun.
    destruct (place_order_returns_inv float_of_str self cart customer ds dls
                dd pd oid now o Hrun) as [w [_ [_ Ho]]].
    rewrite Ho.
    generalize (order_to_pay cart customer ds dls oid now w) as o1.
    intros o1. cbn [Order.set_status Order.status Order.total_amount].
    destruct (process_payment (OrderPlacementFacade.payment_processor self)
                (Order.total_amount o1) pd).
    + split; [reflexivity|]. split; [discriminate | left; reflexivity].
    + split; [discriminate|]. split; [reflexivity | right; reflexivity].
  - intros w Hw Hcart. eexists.
    apply (place_order_run float_of_str self cart customer ds dls dd pd oid
             now w Hw Hcart).
Qed.

Lemma place_order_status_witness :
  exists o,
    OrderPlacementFacade.place_order (gate := declining_gate Q) reject_text
      (OrderPlacementFacade.init tt) Demo.cart Demo.client
      Demo.discount_strategy Demo.delivery_strategy Demo.delivery_details
      Demo.payment_details 7%N 0 = inr o
    /\ Order.status o = OrderStatus.PENDING.
Proof.
  assert (Hw : weight_of (F := Q) reject_text Demo.delivery_details
               = inr 16%Q) by reflexivity.
  assert (Hcart : quantities_convert (ShoppingCart.get_items (F := Q) Demo.cart))
    by (repeat constructor).
  destruct (proj2 (place_order_status (gate := declining_gate Q) reject_text
                     (OrderPlacementFacade.init tt) Demo.cart Demo.client
                     Demo.discount_strategy Demo.delivery_strategy
                     Demo.delivery_details Demo.payment_details 7%N 0)
              16%Q Hw Hcart)
    as [o Hrun].
  exists o. split; [exact Hrun|].
  apply (proj1 (place_order_status (gate := declining_gate Q) reject_text
                  (OrderPlacementFacade.init tt) Demo.cart Demo.client
                  Demo.discount_strategy Demo.delivery_strategy
                  Demo.delivery_details Demo.payment_details 7%N 0) o Hrun).
  reflexivity.
Defined.

(** C10.  [PaymentProcessor.process_payment] returns [True] for every amount
    and every details mapping; with this processor every order that
    [place_order] returns is [Paid], and [place_order] returns one whenever
    the weight entry and the quantities of the cart convert to a [float]. *)
Theorem provided_processor_always_pays {F : Type} {num : Number F}
  (float_of_str : string -> exception + F) :
  (forall (self : PaymentProcessor.t) (amount : F) (details : Py.dict F),
      PaymentProcessor.process_payment self amount details = true)
  /\ (forall (self : OrderPlacementFacade.t PaymentProcessor.t)
        (cart : ShoppingCart.t F) (customer : Customer.t)
        (ds : DiscountStrategy.t F) (dls : DeliveryStrategy.t)
        (dd pd : Py.dict F) (oid : N) (now : datetime) (o : Order.t F),
         OrderPlacementFacade.place_order float_of_str self cart customer ds
           dls dd pd oid now = inr o ->
         Order.status o = OrderStatus.PAID)
  /\ (forall (self : OrderPlacementFacade.t PaymentProcessor.t)
        (cart : ShoppingCart.t F) (customer : Customer.t)
        (ds : DiscountStrategy.t F) (dls : DeliveryStrategy.t)
        (dd pd : Py.dict F) (oid : N) (now : datetime) (w : F),
         weight_of float_of_str dd = inr w ->
         quantities_convert (ShoppingCart.get_items cart) ->
         exists o,
           OrderPlacementFacade.place_order float_of_str self cart customer
             ds dls dd pd oid now = inr o
           /\ Order.status o = OrderStatus.PAID).
Proof.
  split; [reflexivity|]. split.
  - intros self cart customer ds dls dd pd oid now o Hrun.
    destruct (place_order_returns_inv float_of_str self cart customer ds dls
                dd pd oid now o Hrun) as [w [_ [_ Ho]]].
    rewrite Ho. reflexivity.
  - intros self cart customer ds dls dd pd oid now w Hw Hcart. eexists. split.
    + apply (place_order_run float_of_str self cart customer ds dls dd pd oid
               now w Hw Hcart).
    + reflexivity.
Qed.

Lemma provided_processor_witness :
  exists o : Order.t Q,
    Demo.final_order reject_text 7%N 0 = inr o
    /\ Order.status o = OrderStatus.PAID.
Proof.
  apply (proj2 (proj2 (provided_processor_always_pays reject_text))
           Demo.facade Demo.cart Demo.client Demo.discount_strategy
           Demo.delivery_strategy Demo.delivery_details Demo.payment_details
           7%N 0 16%Q).
  - reflexivity.
  - repeat constructor.
Defined.

(** * Further properties of the code *)

(** ** The cart's dictionary: keys and lookups *)

Section CartKeys.
Context {F : Type}.
Implicit Types (d : list (Product.t F * Z)) (p : Product.t F) (q : Z).

Lemma same_true p p' : Product.same p p' = true <-> Product.id p = Product.id p'.
Proof. apply N.eqb_eq. Qed.

Lemma same_false p p' :
  Product.same p p' = false <-> Product.id p <> Product.id p'.
Proof. apply N.eqb_neq. Qed.

Lemma getitem_none d p :
  ShoppingCart.getitem d p = None <-> ~ In (Product.id p) (keys d).
Proof.
  induction d as [|[p0 q0] d IH]; simpl.
  - split; [intros _ [] | reflexivity].
  - destruct (Product.same p0 p) eqn:Hsame.
    + apply same_true in Hsame. split; [discriminate|].
      intros Hnot. exfalso. apply Hnot. left. exact Hsame.
    + apply same_false in Hsame. rewrite IH. split.
      * intros Hnot [Heq | Hin]; [exact (Hsame Heq) | exact (Hnot Hin)].
      * intros Hnot Hin. apply Hnot. right. exact Hin.
Qed.

Lemma keys_setitem d p q :
  keys (ShoppingCart.setitem d p q)
  = match ShoppingCart.getitem d p with
    | Some _ => keys d
    | None => (keys d ++ [Product.id p])%list
    end.
Proof.
  induction d as [|[p0 q0] d IH]; simpl; [reflexivity|].
  destruct (Product.same p0 p); simpl; [reflexivity|].
  rewrite IH. destruct (ShoppingCart.getitem d p); reflexivity.
Qed.

Lemma keys_delitem_incl d p k :
  In k (keys (ShoppingCart.delitem d p)) -> In k (keys d).
Proof.
  induction d as [|[p0 q0] d IH]; simpl; [tauto|].
  destruct (Product.same p0 p); simpl; [tauto|].
  intros [Heq | Hin]; [left; exact Heq | right; exact (IH Hin)].
Qed.

Lemma unique_keys_setitem d p q :
  unique_keys d -> unique_keys (ShoppingCart.setitem d p q).
Proof.
  unfold unique_keys. intros Hd. rewrite keys_setitem.
  destruct (ShoppingCart.getitem d p) eqn:Hget; [exact Hd|].
  apply getitem_none in Hget.
  apply NoDup_rev in Hd. rewrite <- (rev_involutive (keys d ++ _)).
  apply NoDup_rev. rewrite rev_app_distr. simpl.
  constructor; [rewrite <- in_rev; exact Hget | exact Hd].
Qed.

Lemma unique_keys_delitem d p :
  unique_keys d -> unique_keys (ShoppingCart.delitem d p).
Proof.
  unfold unique_keys.
  induction d as [|[p0 q0] d IH]; simpl; intros Hd; [exact Hd|].
  inversion Hd as [|k ks Hnotin Hrest]; subst.
  destruct (Product.same p0 p); simpl; [exact Hrest|].
  constructor; [|exact (IH Hrest)].
  intros Hin. apply Hnotin. exact (keys_delitem_incl d p _ Hin).
Qed.

Lemma getitem_setitem_other d p p' q :
  Product.same p p' = false ->
  ShoppingCart.getitem (ShoppingCart.setitem d p q) p'
  = ShoppingCart.getitem d p'.
Proof.
  intros Hother. induction d as [|[p0 q0] d IH]; simpl.
  - rewrite Hother. reflexivity.
  - destruct (Product.same p0 p) eqn:Hsame; simpl.
    + assert (Hp0 : Product.same p0 p' = false).
      { apply same_false. apply same_true in Hsame. apply same_false in Hother.
        congruence. }
      rewrite Hp0. reflexivity.
    + destruct (Product.same p0 p'); [reflexivity | exact IH].
Qed.

Lemma getitem_delitem_other d p p' :
  Product.same p p' = false ->
  ShoppingCart.getitem (ShoppingCart.delitem d p) p'
  = ShoppingCart.getitem d p'.
Proof.
  intros Hother. induction d as [|[p0 q0] d IH]; simpl; [reflexivity|].
  destruct (Product.same p0 p) eqn:Hsame; simpl.
  - assert (Hp0 : Product.same p0 p' = false).
    { apply same_false. apply same_true in Hsame. apply same_false in Hother.
      congruence. }
    rewrite Hp0. reflexivity.
  - destruct (Product.same p0 p'); [reflexivity | exact IH].
Qed.

Lemma getitem_delitem_same d p :
  unique_keys d -> ShoppingCart.getitem (ShoppingCart.delitem d p) p = None.
Proof.
  unfold unique_keys.
  induction d as [|[p0 q0] d IH]; simpl; intros Hd; [reflexivity|].
  inversion Hd as [|k ks Hnotin Hrest]; subst.
  destruct (Product.same p0 p) eqn:Hsame; simpl.
  - apply getitem_none. apply same_true in Hsame. rewrite <- Hsame.
    exact Hnotin.
  - rewrite Hsame. exact (IH Hrest).
Qed.

Lemma length_delitem d p :
  List.length (ShoppingCart.delitem d p)
  = match ShoppingCart.getitem d p with
    | Some _ => pred (List.length d)
    | None => List.length d
    end.
Proof.
  induction d as [|[p0 q0] d IH]; simpl; [reflexivity|].
  destruct (Product.same p0 p); simpl; [reflexivity|].
  rewrite IH. destruct (ShoppingCart.getitem d p) eqn:Hget; [|reflexivity].
  destruct d; [discriminate Hget | reflexivity].
Qed.

End CartKeys.

(** ** The cart's subtotal *)

Section CartLoop.
Context {F : Type} {num : Number F}.
Implicit Types (d : list (Product.t F * Z)) (a s : F).

Lemma subtotal_loop_run d a :
  quantities_convert d ->
  ShoppingCart.subtotal_loop d a = inr (entries_value d a).
Proof.
  intros Hd. revert a.
  induction Hd as [|[p q] d Hq _ IH]; intros a; simpl; [reflexivity|].
  unfold Py.float_of_int. simpl in Hq. rewrite Hq. apply IH.
Qed.

Lemma subtotal_loop_raises d a :
  Exists (fun entry => Py.in_float_range (snd entry) = false) d ->
  ShoppingCart.subtotal_loop d a = inl int_too_large.
Proof.
  revert a. induction d as [|[p q] d IH]; intros a Hd; [inversion Hd|].
  simpl. unfold Py.float_of_int.
  destruct (Py.in_float_range q) eqn:Hq; [|reflexivity].
  apply IH. inversion Hd as [entry rest Hhead | entry rest Htail]; subst;
    [simpl in Hhead; congruence | exact Htail].
Qed.

Lemma subtotal_loop_inv d a s :
  ShoppingCart.subtotal_loop d a = inr s ->
  quantities_convert d /\ s = entries_value d a.
Proof.
  intros Hrun. destruct (quantities_convert_or_not d) as [Hd | Hd].
  - rewrite (subtotal_loop_run d a Hd) in Hrun. split; [exact Hd | congruence].
  - rewrite (subtotal_loop_raises d a Hd) in Hrun. discriminate.
Qed.

End CartLoop.

Section CartSubtotal.
Local Open Scope Q_scope.
Implicit Types (d : list (Product.t Q * Z)) (p : Product.t Q) (q : Z).

Lemma cart_fold_shift d (a : Q) :
  entries_value d a == a + entries_value d (of_int 0).
Proof.
  unfold entries_value.
  revert a. induction d as [|[p0 q0] d IH]; intros a; cbn [fold_left].
  - simpl. ring.
  - rewrite (IH (a + _)%float), (IH (of_int 0 + _)%float).
    set (rest := fold_left _ d (of_int 0)). simpl. ring.
Qed.

Lemma entries_value_cons d p q :
  entries_value ((p, q) :: d) (of_int 0)
  == Product.price p * inject_Z q + entries_value d (of_int 0).
Proof.
  unfold entries_value at 1. cbn [fold_left].
  fold (entries_value d (of_int 0 + Product.price p * of_int q)%float).
  rewrite cart_fold_shift.
  set (rest := entries_value d (of_int 0)). simpl. ring.
Qed.

Lemma known_as_tail d p p0 q0 : known_as ((p0, q0) :: d) p -> known_as d p.
Proof.
  intros Hknown p' q' Hin. apply (Hknown p' q'). right. exact Hin.
Qed.

Lemma entries_value_setitem_absent d p q :
  ShoppingCart.getitem d p = None ->
  entries_value (ShoppingCart.setitem d p q) (of_int 0)
  == entries_value d (of_int 0) + Product.price p * inject_Z q.
Proof.
  induction d as [|[p0 q0] d IH];
    cbn [ShoppingCart.setitem ShoppingCart.getitem]; intros Hget.
  - rewrite entries_value_cons. unfold entries_value. simpl. ring.
  - destruct (Product.same p0 p); [discriminate Hget|].
    rewrite !entries_value_cons, (IH Hget). ring.
Qed.

Lemma entries_value_setitem_present d p q current :
  ShoppingCart.getitem d p = Some current ->
  known_as d p ->
  entries_value (ShoppingCart.setitem d p q) (of_int 0)
  == entries_value d (of_int 0)
     + Product.price p * (inject_Z q - inject_Z current).
Proof.
  induction d as [|[p0 q0] d IH];
    cbn [ShoppingCart.setitem ShoppingCart.getitem ShoppingCart.delitem];
    intros Hget Hknown;
    [discriminate Hget|].
  destruct (Product.same p0 p) eqn:Hsame.
  - injection Hget as ->.
    rewrite (Hknown p0 current (or_introl eq_refl) Hsame).
    rewrite !entries_value_cons. ring.
  - rewrite !entries_value_cons,
      (IH Hget (known_as_tail d p p0 q0 Hknown)). ring.
Qed.

Lemma entries_value_delitem d p current :
  ShoppingCart.getitem d p = Some current ->
  known_as d p ->
  entries_value d (of_int 0)
  == entries_value (ShoppingCart.delitem d p) (of_int 0)
     + Product.price p * inject_Z current.
Proof.
  induction d as [|[p0 q0] d IH];
    cbn [ShoppingCart.setitem ShoppingCart.getitem ShoppingCart.delitem];
    intros Hget Hknown;
    [discriminate Hget|].
  destruct (Product.same p0 p) eqn:Hsame.
  - injection Hget as ->.
    rewrite (Hknown p0 current (or_introl eq_refl) Hsame).
    rewrite entries_value_cons. ring.
  - rewrite !entries_value_cons,
      (IH Hget (known_as_tail d p p0 q0 Hknown)). ring.
Qed.

End CartSubtotal.

Lemma delitem_last {F : Type} (d : list (Product.t F * Z)) (p : Product.t F)
  (q : Z) :
  ShoppingCart.getitem d p = None ->
  ShoppingCart.delitem (d ++ [(p, q)]) p = d.
Proof.
  induction d as [|[p0 q0] d IH]; simpl; intros Hget.
  - rewrite same_refl. reflexivity.
  - destruct (Product.same p0 p); [discriminate Hget|].
    now rewrite (IH Hget).
Qed.

Lemma quantities_convert_delitem {F : Type} (d : list (Product.t F * Z))
  (p : Product.t F) :
  quantities_convert d -> quantities_convert (ShoppingCart.delitem d p).
Proof.
  unfold quantities_convert.
  induction 1 as [|[p0 q0] d Hq Hd IH]; simpl; [constructor|].
  destruct (Product.same p0 p); [exact Hd | constructor; assumption].
Qed.

Lemma setitem_absent {F : Type} (d : list (Product.t F * Z)) (p : Product.t F)
  (q : Z) :
  ShoppingCart.getitem d p = None ->
  ShoppingCart.setitem d p q = (d ++ [(p, q)])%list.
Proof.
  induction d as [|[p0 q0] d IH]; simpl; intros Hget; [reflexivity|].
  destruct (Product.same p0 p); [discriminate Hget|].
  now rewrite (IH Hget).
Qed.

(** ** The cart *)

(** X1.  A cart whose entries have distinct products keeps that after
    [add_item] and after [remove_item]: no product gets a second entry. *)
Theorem cart_keys_stay_unique {F : Type} (c : ShoppingCart.t F)
  (p : Product.t F) (q : Z) :
  unique_keys (ShoppingCart.items c) ->
  unique_keys (ShoppingCart.items (ShoppingCart.add_item c p q))
  /\ unique_keys (ShoppingCart.items (ShoppingCart.remove_item c p)).
Proof.
  intros Hc. split.
  - unfold ShoppingCart.add_item.
    destruct (ShoppingCart.getitem (ShoppingCart.items c) p); simpl;
      apply unique_keys_setitem, Hc.
  - unfold ShoppingCart.remove_item.
    destruct (ShoppingCart.getitem (ShoppingCart.items c) p); simpl;
      [apply unique_keys_delitem, Hc | exact Hc].
Qed.

Lemma cart_keys_stay_unique_witness :
  unique_keys
    (ShoppingCart.items (ShoppingCart.add_item (F := Q) Demo.cart Demo.milk 3))
  /\ unique_keys
       (ShoppingCart.items (ShoppingCart.remove_item (F := Q) Demo.cart Demo.milk)).
Proof.
  apply (cart_keys_stay_unique (F := Q) Demo.cart Demo.milk 3).
  unfold unique_keys. simpl.
  repeat constructor; simpl; intuition discriminate.
Defined.

(** X2.  After [add_item(product, quantity)] the cart holds for the product
    the quantity it held before plus the added one (the added one alone if it
    held none), and what it holds for every other product is unchanged. *)
Theorem add_item_lookup {F : Type} (c : ShoppingCart.t F) (p : Product.t F)
  (q : Z) :
  ShoppingCart.getitem (ShoppingCart.items (ShoppingCart.add_item c p q)) p
  = Some match ShoppingCart.getitem (ShoppingCart.items c) p with
         | Some current => current + q
         | None => q
         end
  /\ (forall p' : Product.t F,
         Product.same p p' = false ->
         ShoppingCart.getitem
           (ShoppingCart.items (ShoppingCart.add_item c p q)) p'
         = ShoppingCart.getitem (ShoppingCart.items c) p').
Proof.
  split; [apply getitem_add_item|].
  intros p' Hother. unfold ShoppingCart.add_item.
  destruct (ShoppingCart.getitem (ShoppingCart.items c) p); simpl;
    apply getitem_setitem_other, Hother.
Qed.

Lemma add_item_lookup_witness :
  ShoppingCart.getitem
    (ShoppingCart.items (ShoppingCart.add_item (F := Q) Demo.cart Demo.milk 3))
    Demo.milk = Some 5
  /\ ShoppingCart.getitem
       (ShoppingCart.items (ShoppingCart.add_item (F := Q) Demo.cart Demo.milk 3))
       Demo.bread
     = ShoppingCart.getitem (ShoppingCart.items (F := Q) Demo.cart) Demo.bread.
Proof.
  split.
  - apply (proj1 (add_item_lookup (F := Q) Demo.cart Demo.milk 3)).
  - apply (proj2 (add_item_lookup (F := Q) Demo.cart Demo.milk 3) Demo.bread).
    reflexivity.
Defined.

(** X3.  On a cart with distinct products, after [remove_item(product)] the
    cart holds nothing for the product, what it holds for every other product
    is unchanged, and it has one entry less if it held the product; removing a
    product the cart does not hold leaves the cart as it is (no
    [KeyError]). *)
Theorem remove_item_lookup {F : Type} (c : ShoppingCart.t F)
  (p : Product.t F) :
  unique_keys (ShoppingCart.items c) ->
  ShoppingCart.getitem (ShoppingCart.items (ShoppingCart.remove_item c p)) p
  = None
  /\ (forall p' : Product.t F,
         Product.same p p' = false ->
         ShoppingCart.getitem
           (ShoppingCart.items (ShoppingCart.remove_item c p)) p'
         = ShoppingCart.getitem (ShoppingCart.items c) p')
  /\ List.length (ShoppingCart.items (ShoppingCart.remove_item c p))
     = match ShoppingCart.getitem (ShoppingCart.items c) p with
       | Some _ => pred (List.length (ShoppingCart.items c))
       | None => List.length (ShoppingCart.items c)
       end
  /\ (ShoppingCart.getitem (ShoppingCart.items c) p = None ->
      ShoppingCart.remove_item c p = c).
Proof.
  intros Hc. unfold ShoppingCart.remove_item.
  destruct (ShoppingCart.getitem (ShoppingCart.items c) p) as [current|]
    eqn:Hget; simpl.
  - split; [apply getitem_delitem_same, Hc|]. split.
    + intros p' Hother. apply getitem_delitem_other, Hother.
    + split; [|discriminate]. rewrite length_delitem, Hget. reflexivity.
  - split; [exact Hget|]. split; [reflexivity|]. split; reflexivity.
Qed.

Lemma remove_item_lookup_witness :
  ShoppingCart.getitem
    (ShoppingCart.items (ShoppingCart.remove_item (F := Q) Demo.cart Demo.milk))
    Demo.milk = None
  /\ ShoppingCart.getitem
       (ShoppingCart.items (ShoppingCart.remove_item (F := Q) Demo.cart Demo.milk))
       Demo.bread
     = ShoppingCart.getitem (ShoppingCart.items (F := Q) Demo.cart) Demo.bread
  /\ List.length
       (ShoppingCart.items (ShoppingCart.remove_item (F := Q) Demo.cart Demo.milk))
     = 2%nat.
Proof.
  assert (Hc : unique_keys (ShoppingCart.items (F := Q) Demo.cart)).
  { unfold unique_keys. simpl.
    repeat constructor; simpl; intuition discriminate. }
  destruct (remove_item_lookup (F := Q) Demo.cart Demo.milk Hc)
    as [Hgone [Hother [Hlen _]]].
  split; [exact Hgone|]. split; [|exact Hlen].
  apply Hother. reflexivity.
Defined.

(** X4.  Adding a product the cart does not hold and removing it again gives
    back the cart. *)
Theorem remove_item_undoes_add_item {F : Type} (c : ShoppingCart.t F)
  (p : Product.t F) (q : Z) :
  ShoppingCart.getitem (ShoppingCart.items c) p = None ->
  ShoppingCart.remove_item (ShoppingCart.add_item c p q) p = c.
Proof.
  intros Hget. unfold ShoppingCart.remove_item.
  rewrite getitem_add_item. unfold ShoppingCart.add_item. rewrite Hget.
  destruct c as [d]; simpl in *.
  now rewrite (setitem_absent d p q Hget), (delitem_last d p q Hget).
Qed.

Lemma remove_item_undoes_add_item_witness :
  ShoppingCart.remove_item
    (ShoppingCart.add_item (F := Q) ShoppingCart.init Demo.milk 2) Demo.milk
  = ShoppingCart.init.
Proof.
  apply (remove_item_undoes_add_item (F := Q) ShoppingCart.init Demo.milk 2).
  reflexivity.
Defined.

(** X5.  In exact arithmetic, when [calculate_subtotal] returns before and
    after [add_item(product, quantity)], the subtotal after is the subtotal
    before plus the product's price times the quantity, whether or not the
    cart already held the product. *)
Theorem cart_subtotal_add_item (c : ShoppingCart.t Q) (p : Product.t Q)
  (q : Z) (s s' : Q) :
  known_as (ShoppingCart.items c) p ->
  ShoppingCart.calculate_subtotal c = inr s ->
  ShoppingCart.calculate_subtotal (ShoppingCart.add_item c p q) = inr s' ->
  (s' == s + Product.price p * inject_Z q)%Q.
Proof.
  intros Hknown Hbefore Hafter. destruct c as [d].
  unfold ShoppingCart.calculate_subtotal in Hbefore, Hafter.
  apply subtotal_loop_inv in Hbefore. apply subtotal_loop_inv in Hafter.
  destruct Hbefore as [_ ->]. destruct Hafter as [_ ->].
  unfold ShoppingCart.add_item. simpl in Hknown. cbn [ShoppingCart.items].
  destruct (ShoppingCart.getitem d p) as [current|] eqn:Hget;
    cbn [ShoppingCart.items].
  - rewrite (entries_value_setitem_present d p (current + q) current Hget
               Hknown), inject_Z_plus.
    ring.
  - apply (entries_value_setitem_absent d p q Hget).
Qed.

Lemma cart_subtotal_add_item_witness :
  (1665 == 1410 + Product.price Demo.milk * inject_Z 3)%Q.
Proof.
  apply (cart_subtotal_add_item Demo.cart Demo.milk 3 1410%Q 1665%Q).
  - intros p' q' Hin Hsame. simpl in Hin.
    destruct Hin as [Heq | [Heq | [Heq | []]]]; inversion Heq; subst;
      [reflexivity | discriminate Hsame | discriminate Hsame].
  - reflexivity.
  - reflexivity.
Defined.

(** X6.  In exact arithmetic, when [calculate_subtotal] returns before
    [remove_item(product)], it returns after it too, and the subtotal before
    is the subtotal after plus the product's price times the quantity the cart
    held for it. *)
Theorem cart_subtotal_remove_item (c : ShoppingCart.t Q) (p : Product.t Q)
  (s : Q) :
  known_as (ShoppingCart.items c) p ->
  ShoppingCart.calculate_subtotal c = inr s ->
  exists s' : Q,
    ShoppingCart.calculate_subtotal (ShoppingCart.remove_item c p) = inr s'
    /\ (s == s' + Product.price p
                 * inject_Z
                     match ShoppingCart.getitem (ShoppingCart.items c) p with
                     | Some current => current
                     | None => 0
                     end)%Q.
Proof.
  intros Hknown Hbefore. destruct c as [d].
  unfold ShoppingCart.calculate_subtotal in Hbefore.
  cbn [ShoppingCart.items] in Hbefore, Hknown.
  destruct (subtotal_loop_inv d (of_int 0) s Hbefore) as [Hd ->].
  unfold ShoppingCart.remove_item. cbn [ShoppingCart.items].
  destruct (ShoppingCart.getitem d p) as [current|] eqn:Hget.
  - exists (entries_value (ShoppingCart.delitem d p) (of_int 0)). split.
    + unfold ShoppingCart.calculate_subtotal. cbn [ShoppingCart.items].
      apply subtotal_loop_run, quantities_convert_delitem, Hd.
    + apply (entries_value_delitem d p current Hget Hknown).
  - exists (entries_value d (of_int 0)). split.
    + unfold ShoppingCart.calculate_subtotal. cbn [ShoppingCart.items].
      apply subtotal_loop_run, Hd.
    + change (inject_Z 0) with 0%Q. ring.
Qed.

Lemma cart_subtotal_remove_item_witness :
  exists s' : Q,
    ShoppingCart.calculate_subtotal
      (ShoppingCart.remove_item Demo.cart Demo.milk) = inr s'
    /\ (1410 == s' + Product.price Demo.milk
                    * inject_Z
                        match ShoppingCart.getitem
                                (ShoppingCart.items Demo.cart) Demo.milk with
                        | Some current => current
                        | None => 0
                        end)%Q.
Proof.
  apply (cart_subtotal_remove_item Demo.cart Demo.milk 1410%Q).
  - intros p' q' Hin Hsame. simpl in Hin.
    destruct Hin as [Heq | [Heq | [Heq | []]]]; inversion Heq; subst;
      [reflexivity | discriminate Hsame | discriminate Hsame].
  - reflexivity.
Defined.

(** X20.  [ShoppingCart.calculate_subtotal] returns exactly when every
    quantity of the cart converts to a [float], and then it returns the sum
    of price times quantity over the entries, in order; otherwise it raises
    the [OverflowError] of the conversion.  An empty cart has subtotal 0. *)
Theorem cart_subtotal_returns_iff {F : Type} {num : Number F}
  (c : ShoppingCart.t F) :
  (quantities_convert (ShoppingCart.items c) ->
   ShoppingCart.calculate_subtotal c
   = inr (entries_value (ShoppingCart.items c) (of_int 0)))
  /\ (forall s : F,
         ShoppingCart.calculate_subtotal c = inr s ->
         quantities_convert (ShoppingCart.items c))
  /\ (Exists (fun entry => Py.in_float_range (snd entry) = false)
         (ShoppingCart.items c) ->
      ShoppingCart.calculate_subtotal c = inl int_too_large)
  /\ ShoppingCart.calculate_subtotal (F := F) ShoppingCart.init
     = inr (of_int 0).
Proof.
  unfold ShoppingCart.calculate_subtotal. split; [|split; [|split]].
  - apply subtotal_loop_run.
  - intros s Hrun. apply (subtotal_loop_inv _ _ s Hrun).
  - apply subtotal_loop_raises.
  - reflexivity.
Qed.

Lemma cart_subtotal_returns_witness :
  ShoppingCart.calculate_subtotal (F := Q) Demo.cart
  = inr (entries_value (ShoppingCart.items Demo.cart) (of_int 0))
  /\ ShoppingCart.calculate_subtotal (F := Q)
       (ShoppingCart.add_item Demo.cart Demo.milk (2 ^ 1024))
     = inl int_too_large.
Proof.
  split.
  - apply (proj1 (cart_subtotal_returns_iff (F := Q) Demo.cart)).
    repeat constructor.
  - apply (proj1 (proj2 (proj2 (cart_subtotal_returns_iff (F := Q)
                                  (ShoppingCart.add_item Demo.cart Demo.milk
                                     (2 ^ 1024)))))).
    left. vm_compute. reflexivity.
Defined.

(** ** From the cart to the order *)

Section CartToOrder.
Context {F : Type} {num : Number F}.
Implicit Types (d : list (Product.t F * Z)) (o : Order.t F).

Lemma prepared_order_items (cart : ShoppingCart.t F) customer ds dls oid :
  Order.items (prepared_order cart customer ds dls oid)
  = lines_of (ShoppingCart.get_items cart).
Proof. reflexivity. Qed.

Lemma fold_lines_of d (a : F) :
  fold_left add (map OrderItem.get_subtotal (lines_of d)) a
  = entries_value d a.
Proof.
  unfold entries_value.
  revert a. induction d as [|[p q] d IH]; intros a; simpl;
    [reflexivity | apply IH].
Qed.

Lemma sum_lines_of (cart : ShoppingCart.t F) :
  Py.sum (map OrderItem.get_subtotal (lines_of (ShoppingCart.get_items cart)))
  = entries_value (ShoppingCart.items cart) (of_int 0).
Proof. apply fold_lines_of. Qed.

End CartToOrder.

Lemma get_missing {F : Type} (d : Py.dict F) (key : string)
  (default : Py.value F) :
  (forall k v, In (k, v) d -> k <> key) -> Py.get d key default = default.
Proof.
  induction d as [|[k v] d IH]; simpl; intros Hmissing; [reflexivity|].
  destruct (String.eqb k key) eqn:Hk.
  - apply String.eqb_eq in Hk. exfalso.
    exact (Hmissing k v (or_introl eq_refl) Hk).
  - apply IH. intros k' v' Hin. apply (Hmissing k' v'). right. exact Hin.
Qed.

Section ExactOrder.
Local Open Scope Q_scope.

Lemma exact_sum_cons (x : Q) (xs : list Q) : Py.sum (x :: xs) == x + Py.sum xs.
Proof.
  unfold Py.sum. cbn [fold_left]. rewrite exact_fold_add_shift.
  change (fold_left add xs (of_int 0)) with (fold_left add xs 0).
  set (rest := fold_left add xs 0). simpl. ring.
Qed.

Lemma exact_sum_nonneg (xs : list Q) :
  Forall (fun x => 0 <= x) xs -> 0 <= Py.sum xs.
Proof.
  induction 1 as [|x xs Hx _ IH].
  - apply Qle_refl.
  - rewrite exact_sum_cons. lra.
Qed.

Lemma exact_lines_subtotal_nonneg (o : Order.t Q) :
  lines_nonnegative o -> 0 <= lines_subtotal o.
Proof.
  intros Hlines. apply exact_sum_nonneg.
  unfold lines_nonnegative in Hlines.
  induction Hlines; simpl; constructor; assumption.
Qed.

Lemma exact_discount_in_range (strategy : DiscountStrategy.t Q) (s : Q) :
  in_range strategy -> 0 <= s ->
  0 <= DiscountStrategy.apply_discount strategy s
  /\ DiscountStrategy.apply_discount strategy s <= s.
Proof.
  intros Hrange Hs.
  destruct strategy as [|percentage|fixed_amount]; simpl in Hrange;
    cbn [DiscountStrategy.apply_discount].
  - split; [exact Hs | apply Qle_refl].
  - destruct Hrange as [Hlo Hhi].
    change (s * percentage)%float with (s * percentage). split; nra.
  - split; [apply exact_min_glb; assumption | apply exact_min_le_l].
Qed.

Lemma exact_cost_nonneg (strategy : DeliveryStrategy.t) (address : string)
  (w : Q) : 0 <= DeliveryStrategy.calculate_cost strategy address w.
Proof. destruct strategy; simpl; intros H; discriminate H. Qed.

End ExactOrder.

(** ** [calculate_total], again *)

(** X7.  Calling [calculate_total] a second time, with the same weight and at
    the same time, returns (or raises) what the first call did and leaves the
    order as the first call left it: nothing is discounted or charged
    twice. *)
Theorem calculate_total_again {F : Type} {num : Number F} (o : Order.t F)
  (w : F) (now : datetime) :
  Order.calculate_total w now (snd (Order.calculate_total w now o))
  = Order.calculate_total w now o.
Proof.
  destruct (Order.delivery_strategy o) as [strategy|] eqn:Hs.
  - rewrite (calculate_total_attached o w now strategy Hs). simpl snd.
    rewrite (calculate_total_attached (priced strategy w now o) w now strategy)
      by exact Hs.
    unfold priced. simpl. reflexivity.
  - rewrite (calculate_total_unset o w now Hs). simpl snd.
    rewrite calculate_total_unset by exact Hs. reflexivity.
Qed.

(** X8.  After a call that raised for want of a delivery strategy, attaching
    a strategy and calling again gives what attaching the strategy first
    would have given: the failed call leaves nothing behind that a later call
    reads. *)
Theorem calculate_total_after_failure {F : Type} {num : Number F}
  (o : Order.t F) (strategy : DeliveryStrategy.t) (w w' : F)
  (now now' : datetime) :
  Order.delivery_strategy o = None ->
  Order.calculate_total w now
    (Order.set_delivery_strategy strategy
       (snd (Order.calculate_total w' now' o)))
  = Order.calculate_total w now (Order.set_delivery_strategy strategy o).
Proof.
  intros Hnone. rewrite (calculate_total_unset o w' now' Hnone). simpl snd.
  rewrite !(calculate_total_attached _ w now strategy) by reflexivity.
  reflexivity.
Qed.

Lemma calculate_total_after_failure_witness :
  Order.calculate_total 16%Q 0
    (Order.set_delivery_strategy DeliveryStrategy.PostDeliveryStrategy
       (snd (Order.calculate_total 3%Q 5 unconfigured_order)))
  = Order.calculate_total 16%Q 0
      (Order.set_delivery_strategy DeliveryStrategy.PostDeliveryStrategy
         unconfigured_order).
Proof.
  apply (calculate_total_after_failure unconfigured_order
           DeliveryStrategy.PostDeliveryStrategy 16%Q 3%Q 0 5).
  reflexivity.
Defined.

(** X9.  Whether it returns or raises, [calculate_total] leaves the order's
    identifier, customer, lines, status and both strategies as they were. *)
Theorem calculate_total_frame {F : Type} {num : Number F} (o : Order.t F)
  (w : F) (now : datetime) :
  Order.id (snd (Order.calculate_total w now o)) = Order.id o
  /\ Order.customer (snd (Order.calculate_total w now o)) = Order.customer o
  /\ Order.items (snd (Order.calculate_total w now o)) = Order.items o
  /\ Order.status (snd (Order.calculate_total w now o)) = Order.status o
  /\ Order.discount_strategy (snd (Order.calculate_total w now o))
     = Order.discount_strategy o
  /\ Order.delivery_strategy (snd (Order.calculate_total w now o))
     = Order.delivery_strategy o.
Proof.
  destruct (Order.delivery_strategy o) as [strategy|] eqn:Hs.
  - rewrite (calculate_total_attached o w now strategy Hs). simpl.
    rewrite Hs. repeat split.
  - rewrite (calculate_total_unset o w now Hs). simpl.
    rewrite Hs. repeat split.
Qed.

(** X10.  The weight plays no part: [calculate_total] gives the same result
    and the same order for any two weights. *)
Theorem calculate_total_ignores_weight {F : Type} {num : Number F}
  (o : Order.t F) (w1 w2 : F) (now : datetime) :
  Order.calculate_total w1 now o = Order.calculate_total w2 now o.
Proof.
  destruct (Order.delivery_strategy o) as [strategy|] eqn:Hs.
  - rewrite !(calculate_total_attached o _ now strategy Hs). reflexivity.
  - rewrite !(calculate_total_unset o _ now Hs). reflexivity.
Qed.

(** X11.  In exact arithmetic, on an order whose line totals are not negative
    and whose discount strategy has its parameter in range, a call of
    [calculate_total] that returns records a discount between 0 and the
    subtotal and a total that is at least the delivery cost, hence not
    negative. *)
Theorem total_covers_delivery (o : Order.t Q) (w : Q) (now : datetime)
  (total : Q) (o' : Order.t Q) :
  lines_nonnegative o ->
  in_range (Order.discount_strategy o) ->
  Order.calculate_total w now o = (inr total, o') ->
  (0 <= Order.applied_discount o'
   /\ Order.applied_discount o' <= Order.subtotal_calculated o'
   /\ 0 <= Order.delivery_cost o'
   /\ Order.delivery_cost o' <= total)%Q.
Proof.
  intros Hlines Hrange Hrun.
  destruct (calculate_total_returns_inv o w now total o' Hrun)
    as [strategy [_ [Ho' Htotal]]].
  pose proof (exact_lines_subtotal_nonneg o Hlines) as Hsub.
  destruct (exact_discount_in_range _ _ Hrange Hsub) as [Hlo Hhi].
  pose proof (exact_cost_nonneg strategy
                (Customer.address (Order.customer o)) w) as Hcost.
  rewrite Htotal, Ho'. unfold priced.
  cbn [Order.applied_discount Order.subtotal_calculated Order.delivery_cost
         Order.total_amount].
  set (subtotal := lines_subtotal o) in *.
  set (discount :=
         DiscountStrategy.apply_discount (Order.discount_strategy o) subtotal)
    in *.
  set (cost := DeliveryStrategy.calculate_cost strategy _ w) in *.
  change ((subtotal - discount) + cost)%float
    with ((subtotal - discount) + cost)%Q.
  repeat split; lra.
Qed.

Lemma total_covers_delivery_witness :
  (0 <= Order.applied_discount
          (priced Demo.delivery_strategy 16 0%Z configured_order)
   /\ Order.applied_discount
        (priced Demo.delivery_strategy 16 0%Z configured_order)
      <= Order.subtotal_calculated
           (priced Demo.delivery_strategy 16 0%Z configured_order)
   /\ 0 <= Order.delivery_cost
             (priced Demo.delivery_strategy 16 0%Z configured_order)
   /\ Order.delivery_cost
        (priced Demo.delivery_strategy 16 0%Z configured_order) <= 1710)%Q.
Proof.
  apply (total_covers_delivery configured_order 16%Q 0 1710%Q
           (priced Demo.delivery_strategy 16%Q 0 configured_order)).
  - unfold lines_nonnegative. simpl.
    repeat constructor; intros H; discriminate H.
  - simpl. intros H; discriminate H.
  - reflexivity.
Defined.

(** X12.  The quote stored by a call of [calculate_total] that returns keeps
    the times of the estimate: the transit time is 4 hours for pickup, 2 days
    for the courier and 7 days for the post, and the estimated arrival is the
    time of the call plus the transit time, so it lies after the call. *)
Theorem delivery_quote_times {F : Type} {num : Number F} (o : Order.t F)
  (w : F) (now : datetime) (total : F) (o' : Order.t F) :
  Order.calculate_total w now o = (inr total, o') ->
  exists strategy info,
    Order.delivery_strategy o = Some strategy
    /\ Order.delivery_info o' = Some info
    /\ DeliveryInfo.delivery_time info
       = match strategy with
         | DeliveryStrategy.PickupDeliveryStrategy => timedelta_hours 4
         | DeliveryStrategy.CourierDeliveryStrategy => timedelta_days 2
         | DeliveryStrategy.PostDeliveryStrategy => timedelta_days 7
         end
    /\ DeliveryInfo.estimated_delivery_time info
       = now + DeliveryInfo.delivery_time info
    /\ now < DeliveryInfo.estimated_delivery_time info.
Proof.
  intros Hrun.
  destruct (stored_quote o w now total o' Hrun)
    as [strategy [Hs [Hinfo _]]].
  exists strategy. eexists. split; [exact Hs|]. split; [exact Hinfo|].
  destruct strategy; cbn; repeat split; lia.
Qed.

Lemma delivery_quote_times_witness :
  exists strategy info,
    Order.delivery_strategy configured_order = Some strategy
    /\ Order.delivery_info
         (priced Demo.delivery_strategy 16%Q 0 configured_order) = Some info
    /\ DeliveryInfo.delivery_time info
       = match strategy with
         | DeliveryStrategy.PickupDeliveryStrategy => timedelta_hours 4
         | DeliveryStrategy.CourierDeliveryStrategy => timedelta_days 2
         | DeliveryStrategy.PostDeliveryStrategy => timedelta_days 7
         end
    /\ DeliveryInfo.estimated_delivery_time info
       = 0 + DeliveryInfo.delivery_time info
    /\ 0 < DeliveryInfo.estimated_delivery_time info.
Proof.
  apply (delivery_quote_times configured_order 16%Q 0 1710%Q).
  reflexivity.
Defined.

(** ** Discounts and order lines in exact arithmetic *)

(** X13.  In exact arithmetic the percentage strategy constructed with [p]
    discounts [s * p / 100], and the fixed-amount strategy constructed with
    [f] discounts the smaller of [s] and [f]: all of [f] when the subtotal
    covers it, the whole subtotal otherwise. *)
Theorem discount_formulas (s p f : Q) :
  (DiscountStrategy.apply_discount
     (DiscountStrategy.PercentageDiscountStrategy_init p) s
   == s * p / 100)%Q
  /\ (DiscountStrategy.apply_discount
        (DiscountStrategy.FixedAmountDiscountStrategy_init f) s
      == Qmin s f)%Q
  /\ ((f <= s)%Q ->
      (DiscountStrategy.apply_discount
         (DiscountStrategy.FixedAmountDiscountStrategy_init f) s == f)%Q)
  /\ ((s <= f)%Q ->
      (DiscountStrategy.apply_discount
         (DiscountStrategy.FixedAmountDiscountStrategy_init f) s == s)%Q).
Proof.
  assert (Hmin : (DiscountStrategy.apply_discount
                    (DiscountStrategy.FixedAmountDiscountStrategy_init f) s
                  == Qmin s f)%Q).
  { unfold DiscountStrategy.FixedAmountDiscountStrategy_init.
    cbn [DiscountStrategy.apply_discount]. unfold Py.min.
    destruct (ltb f s) eqn:Hlt.
    - apply exact_ltb_true in Hlt. symmetry. apply Q.min_r.
      apply Qlt_le_weak, Hlt.
    - symmetry. apply Q.min_l. apply Qnot_lt_le. intros Hfs.
      apply exact_ltb_true in Hfs. congruence. }
  split; [|split; [exact Hmin | split]].
  - unfold DiscountStrategy.PercentageDiscountStrategy_init. simpl. field.
  - intros Hfs. rewrite Hmin. apply Q.min_r, Hfs.
  - intros Hsf. rewrite Hmin. apply Q.min_l, Hsf.
Qed.

Lemma discount_formulas_witness :
  (DiscountStrategy.apply_discount
     (DiscountStrategy.FixedAmountDiscountStrategy_init 100) 1410 == 100)%Q
  /\ (DiscountStrategy.apply_discount
        (DiscountStrategy.FixedAmountDiscountStrategy_init 100) 40 == 40)%Q.
Proof.
  split.
  - apply (proj1 (proj2 (proj2 (discount_formulas 1410 0 100)))).
    intros H; discriminate H.
  - apply (proj2 (proj2 (proj2 (discount_formulas 40 0 100)))).
    intros H; discriminate H.
Defined.

(** X14.  [add_item_from_cart(product, quantity)] with a quantity that
    converts to a [float] (zero and negative ones included) adds one line, and
    in exact arithmetic raises the subtotal that [calculate_subtotal] returns
    and records by the product's price times the quantity; with a quantity
    that does not convert it raises the [OverflowError] and leaves the order
    as it was. *)
Theorem order_subtotal_add_item (o : Order.t Q) (p : Product.t Q) (q : Z) :
  (Py.in_float_range q = true ->
   exists (o' : Order.t Q) (s : Q),
     Order.add_item_from_cart p q o = (inr tt, o')
     /\ List.length (Order.items o') = S (List.length (Order.items o))
     /\ Order.calculate_subtotal o'
        = (inr s, Order.set_subtotal_calculated s o')
     /\ (s == lines_subtotal o + Product.price p * inject_Z q)%Q)
  /\ (Py.in_float_range q = false ->
      Order.add_item_from_cart p q o = (inl int_too_large, o)).
Proof.
  split.
  - intros Hq. rewrite (add_item_from_cart_run p q o Hq).
    eexists. eexists. split; [reflexivity|]. split.
    + cbn [Order.set_items Order.items]. rewrite length_app. simpl. lia.
    + split; [apply calculate_subtotal_run|].
      unfold lines_subtotal. cbn [Order.set_items Order.items].
      rewrite map_app, exact_sum_app. simpl map. rewrite exact_sum_cons.
      unfold Py.sum at 2. simpl. ring.
  - apply add_item_from_cart_raises.
Qed.

Lemma order_subtotal_add_item_witness :
  (exists (o' : Order.t Q) (s : Q),
      Order.add_item_from_cart Demo.bread (-1) unconfigured_order
      = (inr tt, o')
      /\ List.length (Order.items o')
         = S (List.length (Order.items unconfigured_order))
      /\ Order.calculate_subtotal o'
         = (inr s, Order.set_subtotal_calculated s o')
      /\ (s == lines_subtotal unconfigured_order
               + Product.price Demo.bread * inject_Z (-1))%Q)
  /\ Order.add_item_from_cart Demo.bread (2 ^ 1024) unconfigured_order
     = (inl int_too_large, unconfigured_order).
Proof.
  split.
  - apply (proj1 (order_subtotal_add_item unconfigured_order Demo.bread (-1))).
    reflexivity.
  - apply (proj2 (order_subtotal_add_item unconfigured_order Demo.bread
                    (2 ^ 1024))).
    vm_compute. reflexivity.
Defined.

(** ** [place_order], again *)

(** X15.  Every order that [place_order] returns has one line per entry of
    the cart, in the cart's order: the line's product and quantity are the
    entry's, and its total is the product's price times the quantity.  The
    order carries the given identifier, customer and strategies. *)
Theorem place_order_lines {F : Type} {num : Number F} {P : Type}
  {gate : PaymentGate F P} (float_of_str : string -> exception + F)
  (self : OrderPlacementFacade.t P) (cart : ShoppingCart.t F)
  (customer : Customer.t) (ds : DiscountStrategy.t F)
  (dls : DeliveryStrategy.t) (dd pd : Py.dict F) (oid : N) (now : datetime)
  (o : Order.t F) :
  OrderPlacementFacade.place_order float_of_str self cart customer ds dls dd
    pd oid now = inr o ->
  map (fun item =>
         (OrderItem.product item, OrderItem.quantity item,
          OrderItem.final_price item)) (Order.items o)
  = map (fun '(product, quantity) =>
           (product, quantity,
            (Product.price product * of_int quantity)%float))
      (ShoppingCart.get_items cart)
  /\ List.length (Order.items o)
     = List.length (ShoppingCart.get_items cart)
  /\ Order.id o = oid
  /\ Order.customer o = customer
  /\ Order.discount_strategy o = ds
  /\ Order.delivery_strategy o = Some dls.
Proof.
  intros Hrun.
  destruct (place_order_returns_inv float_of_str self cart customer ds dls dd
              pd oid now o Hrun) as [w [_ [_ Ho]]].
  rewrite Ho. unfold order_to_pay, priced.
  cbn [Order.set_status Order.items Order.id Order.customer
         Order.discount_strategy Order.delivery_strategy].
  rewrite prepared_order_items. split.
  - unfold lines_of. rewrite map_map.
    apply map_ext. intros [product quantity]. reflexivity.
  - split; [apply length_map|]. repeat split.
Qed.

Lemma place_order_lines_witness :
  map (fun item =>
         (OrderItem.product item, OrderItem.quantity item,
          OrderItem.final_price item))
    (Order.items
       (Order.set_status OrderStatus.PAID
          (order_to_pay (F := Q) Demo.cart Demo.client Demo.discount_strategy
             Demo.delivery_strategy 7%N 0 16%Q)))
  = map (fun '(product, quantity) =>
           (product, quantity,
            (Product.price product * of_int quantity)%float))
      (ShoppingCart.get_items Demo.cart)
  /\ List.length
       (Order.items
          (Order.set_status OrderStatus.PAID
             (order_to_pay (F := Q) Demo.cart Demo.client
                Demo.discount_strategy Demo.delivery_strategy 7%N 0 16%Q)))
     = List.length (ShoppingCart.get_items (F := Q) Demo.cart)
  /\ Order.id
       (Order.set_status OrderStatus.PAID
          (order_to_pay (F := Q) Demo.cart Demo.client Demo.discount_strategy
             Demo.delivery_strategy 7%N 0 16%Q)) = 7%N
  /\ Order.customer
       (Order.set_status OrderStatus.PAID
          (order_to_pay (F := Q) Demo.cart Demo.client Demo.discount_strategy
             Demo.delivery_strategy 7%N 0 16%Q)) = Demo.client
  /\ Order.discount_strategy
       (Order.set_status OrderStatus.PAID
          (order_to_pay (F := Q) Demo.cart Demo.client Demo.discount_strategy
             Demo.delivery_strategy 7%N 0 16%Q)) = Demo.discount_strategy
  /\ Order.delivery_strategy
       (Order.set_status OrderStatus.PAID
          (order_to_pay (F := Q) Demo.cart Demo.client Demo.discount_strategy
             Demo.delivery_strategy 7%N 0 16%Q))
     = Some Demo.delivery_strategy.
Proof.
  apply (place_order_lines (F := Q) reject_text Demo.facade Demo.cart
           Demo.client Demo.discount_strategy Demo.delivery_strategy
           Demo.delivery_details Demo.payment_details 7%N 0).
  reflexivity.
Defined.

(** X16.  In exact arithmetic, when [place_order] returns an order, the
    cart's [calculate_subtotal] returns too, and the subtotal recorded in the
    order is the subtotal of the cart. *)
Theorem placed_order_subtotal_is_cart_subtotal {P : Type}
  {gate : PaymentGate Q P} (float_of_str : string -> exception + Q)
  (self : OrderPlacementFacade.t P) (cart : ShoppingCart.t Q)
  (customer : Customer.t) (ds : DiscountStrategy.t Q)
  (dls : DeliveryStrategy.t) (dd pd : Py.dict Q) (oid : N) (now : datetime)
  (o : Order.t Q) :
  OrderPlacementFacade.place_order float_of_str self cart customer ds dls dd
    pd oid now = inr o ->
  exists s : Q,
    ShoppingCart.calculate_subtotal cart = inr s
    /\ (Order.subtotal_calculated o == s)%Q.
Proof.
  intros Hrun.
  destruct (place_order_returns_inv float_of_str self cart customer ds dls dd
              pd oid now o Hrun) as [w [_ [Hcart Ho]]].
  exists (entries_value (ShoppingCart.items cart) (of_int 0)). split.
  - apply subtotal_loop_run, Hcart.
  - rewrite Ho. unfold order_to_pay, priced.
    cbn [Order.set_status Order.subtotal_calculated].
    unfold lines_subtotal. rewrite prepared_order_items, sum_lines_of.
    reflexivity.
Qed.

Lemma placed_order_subtotal_witness :
  exists s : Q,
    ShoppingCart.calculate_subtotal Demo.cart = inr s
    /\ (Order.subtotal_calculated
          (Order.set_status OrderStatus.PAID
             (order_to_pay Demo.cart Demo.client Demo.discount_strategy
                Demo.delivery_strategy 7%N 0%Z 16))
        == s)%Q.
Proof.
  apply (placed_order_subtotal_is_cart_subtotal reject_text Demo.facade
           Demo.cart Demo.client Demo.discount_strategy Demo.delivery_strategy
           Demo.delivery_details Demo.payment_details 7%N 0%Z).
  reflexivity.
Defined.

(** X17.  [place_order] raises [e] in exactly two cases: the conversion
    [float(delivery_details.get('weight', 0))] raises [e]; or that conversion
    returns, some quantity of the cart does not convert to a [float], and [e]
    is the [OverflowError] of that conversion.  Nothing else makes it
    raise, whatever the strategies and the payment gate. *)
Theorem place_order_raises_iff {F : Type} {num : Number F} {P : Type}
  {gate : PaymentGate F P} (float_of_str : string -> exception + F)
  (self : OrderPlacementFacade.t P) (cart : ShoppingCart.t F)
  (customer : Customer.t) (ds : DiscountStrategy.t F)
  (dls : DeliveryStrategy.t) (dd pd : Py.dict F) (oid : N) (now : datetime)
  (e : exception) :
  OrderPlacementFacade.place_order float_of_str self cart customer ds dls dd
    pd oid now = inl e
  <-> (weight_of float_of_str dd = inl e
       \/ ((exists w, weight_of float_of_str dd = inr w)
           /\ Exists (fun entry => Py.in_float_range (snd entry) = false)
                (ShoppingCart.get_items cart)
           /\ e = int_too_large)).
Proof.
  split.
  - intros Hrun. destruct (weight_of float_of_str dd) as [e'|w] eqn:Hw.
    + rewrite (place_order_raises float_of_str self cart customer ds dls dd pd
                 oid now e' Hw) in Hrun.
      left. congruence.
    + destruct (quantities_convert_or_not (ShoppingCart.get_items cart))
        as [Hcart | Hcart].
      * rewrite (place_order_run float_of_str self cart customer ds dls dd pd
                   oid now w Hw Hcart) in Hrun.
        discriminate Hrun.
      * rewrite (place_order_overflows float_of_str self cart customer ds dls
                   dd pd oid now w Hw Hcart) in Hrun.
        right. split; [exists w; reflexivity|]. split; [exact Hcart|].
        congruence.
  - intros [Hw | [[w Hw] [Hcart ->]]].
    + apply place_order_raises, Hw.
    + apply (place_order_overflows float_of_str self cart customer ds dls dd
               pd oid now w Hw Hcart).
Qed.

(** X18.  Delivery details without a ['weight'] entry are accepted: the
    weight defaults to 0 without any text being parsed, [place_order] gives
    what it gives for a weight entry of 0, and it returns an order when the
    quantities of the cart convert to a [float]. *)
Theorem place_order_without_weight {F : Type} {num : Number F} {P : Type}
  {gate : PaymentGate F P} (float_of_str : string -> exception + F)
  (self : OrderPlacementFacade.t P) (cart : ShoppingCart.t F)
  (customer : Customer.t) (ds : DiscountStrategy.t F)
  (dls : DeliveryStrategy.t) (dd pd : Py.dict F) (oid : N) (now : datetime) :
  (forall k v, In (k, v) dd -> k <> "weight") ->
  weight_of float_of_str dd = inr (of_int 0)
  /\ OrderPlacementFacade.place_order float_of_str self cart customer ds dls
       dd pd oid now
     = OrderPlacementFacade.place_order float_of_str self cart customer ds
         dls [("weight", Py.VInt 0)] pd oid now
  /\ (quantities_convert (ShoppingCart.get_items cart) ->
      exists o,
        OrderPlacementFacade.place_order float_of_str self cart customer ds
          dls dd pd oid now = inr o).
Proof.
  intros Hmissing.
  assert (Hw : weight_of float_of_str dd = inr (of_int 0)).
  { unfold weight_of. rewrite (get_missing dd "weight" _ Hmissing).
    reflexivity. }
  split; [exact Hw|]. split.
  - unfold OrderPlacementFacade.place_order. unfold weight_of in Hw.
    rewrite Hw. reflexivity.
  - intros Hcart. eexists.
    apply (place_order_run float_of_str self cart customer ds dls dd pd oid
             now (of_int 0) Hw Hcart).
Qed.

Lemma place_order_without_weight_witness :
  weight_of (F := Q) reject_text [("address", Py.VStr "x")] = inr (of_int 0)
  /\ OrderPlacementFacade.place_order (F := Q) reject_text Demo.facade
       Demo.cart Demo.client Demo.discount_strategy Demo.delivery_strategy
       [("address", Py.VStr "x")] Demo.payment_details 7%N 0
     = OrderPlacementFacade.place_order reject_text Demo.facade Demo.cart
         Demo.client Demo.discount_strategy Demo.delivery_strategy
         [("weight", Py.VInt 0)] Demo.payment_details 7%N 0
  /\ (quantities_convert (ShoppingCart.get_items (F := Q) Demo.cart) ->
      exists o,
        OrderPlacementFacade.place_order (F := Q) reject_text Demo.facade
          Demo.cart Demo.client Demo.discount_strategy Demo.delivery_strategy
          [("address", Py.VStr "x")] Demo.payment_details 7%N 0 = inr o).
Proof.
  apply (place_order_without_weight (F := Q) reject_text Demo.facade Demo.cart
           Demo.client Demo.discount_strategy Demo.delivery_strategy
           [("address", Py.VStr "x")] Demo.payment_details 7%N 0).
  intros k v [Heq | []]. inversion Heq; subst. discriminate.
Defined.

(** X19.  An empty cart is not refused.  In exact arithmetic, with a discount
    strategy whose parameter is in range, [place_order] on an empty cart
    returns an order without lines, with subtotal 0 and discount 0, whose
    total is the delivery cost. *)
Theorem place_order_empty_cart {P : Type} {gate : PaymentGate Q P}
  (float_of_str : string -> exception + Q) (self : OrderPlacementFacade.t P)
  (customer : Customer.t) (ds : DiscountStrategy.t Q)
  (dls : DeliveryStrategy.t) (dd pd : Py.dict Q) (oid : N) (now : datetime)
  (w : Q) :
  in_range ds ->
  weight_of float_of_str dd = inr w ->
  exists o,
    OrderPlacementFacade.place_order float_of_str self ShoppingCart.init
      customer ds dls dd pd oid now = inr o
    /\ Order.items o = []
    /\ (Order.subtotal_calculated o == 0)%Q
    /\ (Order.applied_discount o == 0)%Q
    /\ (Order.total_amount o
        == DeliveryStrategy.calculate_cost dls (Customer.address customer) w)%Q.
Proof.
  intros Hrange Hw. eexists. split.
  - apply (place_order_run float_of_str self ShoppingCart.init customer ds dls
             dd pd oid now w Hw).
    constructor.
  - unfold order_to_pay, priced.
    cbn [Order.set_status Order.items Order.subtotal_calculated
           Order.applied_discount Order.total_amount].
    assert (Hzero : lines_subtotal
                      (prepared_order ShoppingCart.init customer ds dls oid)
                    = 0%Q) by reflexivity.
    rewrite Hzero.
    change (Order.discount_strategy
              (prepared_order ShoppingCart.init customer ds dls oid)) with ds.
    change (Order.customer
              (prepared_order ShoppingCart.init customer ds dls oid))
      with customer.
    destruct (exact_discount_in_range ds 0%Q Hrange (Qle_refl 0))
      as [Hlo Hhi].
    assert (Hdiscount : (DiscountStrategy.apply_discount ds 0 == 0)%Q)
      by (apply Qle_antisym; assumption).
    split; [reflexivity|]. split; [reflexivity|]. split; [exact Hdiscount|].
    set (cost := DeliveryStrategy.calculate_cost dls _ w).
    set (discount := DiscountStrategy.apply_discount ds 0%Q) in *.
    change ((0%Q - discount) + cost)%float with ((0 - discount) + cost)%Q.
    lra.
Qed.

Lemma place_order_empty_cart_witness :
  exists o,
    OrderPlacementFacade.place_order (F := Q) reject_text Demo.facade
      ShoppingCart.init Demo.client Demo.discount_strategy
      Demo.delivery_strategy Demo.delivery_details Demo.payment_details 7%N 0
    = inr o
    /\ Order.items o = []
    /\ (Order.subtotal_calculated o == 0)%Q
    /\ (Order.applied_discount o == 0)%Q
    /\ (Order.total_amount o
        == DeliveryStrategy.calculate_cost Demo.delivery_strategy
             (Customer.address Demo.client) 16)%Q.
Proof.
  apply (place_order_empty_cart reject_text Demo.facade Demo.client
           Demo.discount_strategy Demo.delivery_strategy Demo.delivery_details
           Demo.payment_details 7%N 0 16%Q).
  - simpl. intros H; discriminate H.
  - reflexivity.
Defined.
